(** * Shallow embedding of the K8s MCP server (src/server.py, src/tools/*.py)

    Python values, exceptions and the external collaborators (cluster API,
    PyYAML, the kubectl subprocess) are modelled explicitly; every tool
    method is translated branch by branch from its source. *)

From Stdlib Require Import List String Ascii ZArith Lia Bool.
From Stdlib Require Import Sorting.Sorted Sorting.Permutation.
Import ListNotations.
Open Scope string_scope.

(** ** Python prelude *)

(** A raised Python exception: its class name and [str(e)]. Every exception
    the modelled code can raise derives from [Exception]. *)
Record PyExc := mkExc { exc_class : string; exc_str : string }.

(** Outcome of a Python computation: a value or a raised exception. *)
Inductive Exc (A : Type) : Type :=
| Ok : A -> Exc A
| Raise : PyExc -> Exc A.
Arguments Ok {A} _.
Arguments Raise {A} _.

(** [kubernetes.client.rest.ApiException]: status, reason and body. *)
Record ApiException := mkApiExc
  { api_status : Z; api_reason : string; api_body : string }.

(** Outcome of one call into the cluster API client: a returned object, an
    [ApiException], or another exception raised by the client. *)
Inductive ApiResult (A : Type) : Type :=
| Returned : A -> ApiResult A
| ApiError : ApiException -> ApiResult A
| OtherError : PyExc -> ApiResult A.
Arguments Returned {A} _.
Arguments ApiError {A} _.
Arguments OtherError {A} _.

(** Decimal rendering of a natural number, as Python's [str(int)]. *)
Fixpoint digits_rev (fuel n : nat) : list ascii :=
  match fuel with
  | O => []
  | S fuel' =>
      let d := ascii_of_nat (48 + n mod 10) in
      if Nat.ltb n 10 then [d] else d :: digits_rev fuel' (n / 10)
  end.

Definition str_nat (n : nat) : string :=
  string_of_list_ascii (rev (digits_rev (S n) n)).

(** [str(int)] on a Python integer. *)
Definition str_Z (z : Z) : string :=
  if (z <? 0)%Z then "-" ++ str_nat (Z.to_nat (- z)) else str_nat (Z.to_nat z).

(** A Python [Optional[str]] interpolated in an f-string: [None] prints as
    "None". *)
Definition str_opt (o : option string) : string :=
  match o with Some s => s | None => "None" end.

(** Truthiness of an [Optional[str]]: [None] and "" are falsy. *)
Definition truthy_opt (o : option string) : bool :=
  match o with Some s => negb (String.eqb s "") | None => false end.

(** Substring test ("x in s" on Python strings). *)
Fixpoint contains (needle hay : string) : bool :=
  if String.prefix needle hay then true
  else match hay with EmptyString => false | String _ hay' => contains needle hay' end.

(** A state and exception monad: the tool methods thread the state of the
    external world (cluster, file system, processes) they act on. *)
Definition ST (S A : Type) : Type := S -> Exc A * S.

Definition st_ret {S A} (a : A) : ST S A := fun s => (Ok a, s).

Definition st_bind {S A B} (m : ST S A) (k : A -> ST S B) : ST S B :=
  fun s => match m s with
           | (Ok a, s') => k a s'
           | (Raise e, s') => (Raise e, s')
           end.

Definition st_raise {S A} (e : PyExc) : ST S A := fun s => (Raise e, s).

(** [try: m finally: fin] where [fin] cannot raise. *)
Definition st_finally {S A} (m : ST S A) (fin : S -> S) : ST S A :=
  fun s => let '(r, s') := m s in (r, fin s').

Declare Scope st_scope.
Notation "x <- m ;; k" := (st_bind m (fun x => k))
  (at level 61, m at next level, right associativity) : st_scope.

(** ** src/tools/events.py *)
Module Events.

(** The fields of [V1Event] / [CoreV1Event] that [list_events] reads.
    Timestamps are [datetime]s, modelled as comparable integers; the
    metadata creation timestamp is set by the API server on every object. *)
Record Event := mkEvent
  { first_timestamp : option Z
  ; event_time : option Z
  ; creation_timestamp : Z
  ; ev_type : option string
  ; ev_reason : option string
  ; ev_message : option string
  ; io_kind : option string
  ; io_name : option string
  ; io_namespace : option string }.

(** [e.first_timestamp or e.event_time or e.metadata.creation_timestamp]
    (a [datetime] is always truthy). *)
Definition eff_ts (e : Event) : Z :=
  match first_timestamp e with
  | Some t => t
  | None => match event_time e with Some t => t | None => creation_timestamp e end
  end.

(** [sorted(items, key=eff_ts, reverse=True)]: a stable sort on descending
    keys (Python keeps equal keys in their original order also with
    [reverse=True]). [insert_desc x l] puts [x] before the first element
    whose key is not greater than its own. *)
Fixpoint insert_desc (x : Event) (l : list Event) : list Event :=
  match l with
  | [] => [x]
  | y :: l' => if (eff_ts y <=? eff_ts x)%Z then x :: l else y :: insert_desc x l'
  end.

Fixpoint sort_desc (l : list Event) : list Event :=
  match l with
  | [] => []
  | x :: l' => insert_desc x (sort_desc l')
  end.

(** Python slice [xs[:limit]]. *)
Definition py_take {A} (limit : Z) (xs : list A) : list A :=
  if (0 <=? limit)%Z then firstn (Z.to_nat limit) xs
  else firstn (List.length xs - Z.to_nat (- limit)) xs.

(** [str(datetime)] in the rendered line, abstracted to the integer. *)
Definition show_ts (t : Z) : string := str_Z t.

Definition nl : string := String (ascii_of_nat 10) EmptyString.

(** One event block of the loop body (lines 47-53). *)
Definition render_event (e : Event) : string :=
  "[" ++ show_ts (eff_ts e) ++ "] " ++ str_opt (ev_type e) ++ " - " ++ str_opt (ev_reason e) ++ nl
  ++ "  Object: " ++ str_opt (io_kind e) ++ "/" ++ str_opt (io_name e) ++ nl
  ++ "  Namespace: " ++ str_opt (io_namespace e) ++ nl
  ++ (if truthy_opt (ev_message e) then "  Message: " ++ str_opt (ev_message e) ++ nl else "")
  ++ nl.

(** The two list calls of [CoreV1Api] used by [list_events]. *)
Record CoreV1Api := mkCoreV1
  { list_namespaced_event : string -> Z -> ApiResult (list Event)
  ; list_event_for_all_namespaces : Z -> ApiResult (list Event) }.

(** [EventTools.list_events(namespace, limit)] *)
Definition list_events (v1 : CoreV1Api) (namespace : option string) (limit : Z) : string :=
  let '(resp, scope) :=
    if truthy_opt namespace
    then (list_namespaced_event v1 (str_opt namespace) limit,
          "namespace '" ++ str_opt namespace ++ "'")
    else (list_event_for_all_namespaces v1 limit, "all namespaces") in
  match resp with
  | ApiError e => "Error listing events: " ++ api_reason e ++ " - " ++ api_body e
  | OtherError e => "Unexpected error: " ++ exc_str e
  | Returned items =>
      match items with
      | [] => "No events found in " ++ scope
      | _ =>
          let sorted_events := sort_desc items in
          let header := "Recent events in " ++ scope ++ " (showing "
                        ++ str_nat (List.length sorted_events) ++ "):" ++ nl ++ nl in
          header ++ String.concat "" (map render_event (py_take limit sorted_events))
      end
  end.

(** Descending order on effective timestamps, and the events of one
    timestamp. *)
Definition ts_ge (a b : Event) : Prop := (eff_ts b <= eff_ts a)%Z.

Definition with_ts (t : Z) (e : Event) : bool := (eff_ts e =? t)%Z.

(** The three events of the spec's example: effective timestamps 10:00,
    12:00 and 11:00 (seconds since midnight). *)
Definition ev_at (t : Z) (r : string) : Event :=
  mkEvent None None t (Some "Normal") (Some r) None (Some "Pod") (Some "p") (Some "default").

Definition T1 := ev_at 36000 "T1".
Definition T2 := ev_at 43200 "T2".
Definition T3 := ev_at 39600 "T3".

Definition v1_example : CoreV1Api :=
  mkCoreV1 (fun _ _ => Returned [T1; T2; T3]) (fun _ => Returned [T1; T2; T3]).

End Events.

(** ** src/server.py *)
Module Dispatch.

(** Loosely typed values of the argument bag (decoded JSON): null, strings,
    integers, floats, booleans, objects and arrays. A float is kept as its
    Python [repr] text (e.g. "1.5", "1e+21"), which is what [str] prints. *)
Local Set Warnings "-register-all".
Inductive PyVal : Type :=
| PNone : PyVal
| PStr : string -> PyVal
| PInt : Z -> PyVal
| PFloat : string -> PyVal
| PBool : bool -> PyVal
| PDict : list (string * PyVal) -> PyVal
| PList : list PyVal -> PyVal.

(** The argument bag [arguments: dict[str, Any]]. *)
Definition Args := list (string * PyVal).

Fixpoint dict_get (k : string) (d : Args) : option PyVal :=
  match d with
  | [] => None
  | (k', v) :: d' => if String.eqb k k' then Some v else dict_get k d'
  end.

(** [repr] of a string key, as in [str(KeyError(k))], for the literal keys
    [call_tool] reads (letters and underscores, so no character is escaped). *)
Definition repr_str (s : string) : string := "'" ++ s ++ "'".

(** [repr(s)] of a string value: single quotes, unless the text holds a
    single quote and no double quote; the chosen quote and the backslash
    are escaped, tab, newline and carriage return as [\t], [\n], [\r], the
    other ASCII control characters as [\xhh]. Bytes of non-ASCII
    characters are kept (printable characters print as themselves). *)
Definition hex_digit (n : nat) : ascii :=
  ascii_of_nat (if Nat.ltb n 10 then 48 + n else 87 + n).

Definition dquote : ascii := ascii_of_nat 34.

Fixpoint repr_body (q : ascii) (s : string) : string :=
  match s with
  | EmptyString => EmptyString
  | String c s' =>
      let n := nat_of_ascii c in
      (if Ascii.eqb c q || Nat.eqb n 92 then String (ascii_of_nat 92) (String c EmptyString)
       else if Nat.eqb n 9 then "\t"
       else if Nat.eqb n 10 then "\n"
       else if Nat.eqb n 13 then "\r"
       else if Nat.ltb n 32 || Nat.eqb n 127
       then "\x" ++ String (hex_digit (n / 16)) (String (hex_digit (n mod 16)) EmptyString)
       else String c EmptyString)
      ++ repr_body q s'
  end.

Definition py_repr_str (s : string) : string :=
  let q := if contains "'" s && negb (contains (String dquote EmptyString) s)
           then dquote else "'"%char in
  String q (repr_body q s ++ String q EmptyString).

(** [repr(v)] of an argument value: how a value prints inside a dict or a
    list. *)
Fixpoint py_repr (v : PyVal) : string :=
  match v with
  | PNone => "None"
  | PStr s => py_repr_str s
  | PInt z => str_Z z
  | PFloat r => r
  | PBool b => if b then "True" else "False"
  | PDict kvs =>
      "{" ++ String.concat ", "
               (map (fun kv => py_repr_str (fst kv) ++ ": " ++ py_repr (snd kv)) kvs) ++ "}"
  | PList xs => "[" ++ String.concat ", " (map py_repr xs) ++ "]"
  end.

(** [str(v)] of an argument value (used when [name] is rebound): the text
    itself for a string, its [repr] otherwise. *)
Definition py_str (v : PyVal) : string :=
  match v with
  | PStr s => s
  | _ => py_repr v
  end.

(** [mcp.types.TextContent] *)
Record TextContent := mkText { tc_type : string; tc_text : string }.

Definition text (s : string) : TextContent := mkText "text" s.

(** An Operation Descriptor of [list_tools]: name, argument keys with their
    JSON types, and the required keys. *)
Record Tool := mkTool
  { tool_name : string; tool_props : list (string * string); tool_required : list string }.

(** The registry returned by [list_tools] (lines 40-482). *)
Definition list_tools : list Tool :=
  [ mkTool "list_pods" [("namespace", "string")] []
  ; mkTool "get_pod_logs" [("pod_name", "string"); ("namespace", "string"); ("tail", "integer")] ["pod_name"]
  ; mkTool "describe_pod" [("pod_name", "string"); ("namespace", "string")] ["pod_name"]
  ; mkTool "list_deployments" [("namespace", "string")] []
  ; mkTool "scale_deployment" [("deployment_name", "string"); ("replicas", "integer"); ("namespace", "string")] ["deployment_name"; "replicas"]
  ; mkTool "restart_deployment" [("deployment_name", "string"); ("namespace", "string")] ["deployment_name"]
  ; mkTool "apply_yaml" [("yaml_content", "string")] ["yaml_content"]
  ; mkTool "get_yaml" [("kind", "string"); ("name", "string"); ("namespace", "string")] ["kind"; "name"]
  ; mkTool "list_events" [("namespace", "string"); ("limit", "integer")] []
  ; mkTool "list_services" [("namespace", "string")] []
  ; mkTool "describe_service" [("service_name", "string"); ("namespace", "string")] ["service_name"]
  ; mkTool "list_configmaps" [("namespace", "string")] []
  ; mkTool "get_configmap" [("name", "string"); ("namespace", "string")] ["name"]
  ; mkTool "list_secrets" [("namespace", "string")] []
  ; mkTool "get_secret" [("name", "string"); ("namespace", "string"); ("decode", "boolean")] ["name"]
  ; mkTool "list_namespaces" [] []
  ; mkTool "create_namespace" [("name", "string"); ("labels", "object")] ["name"]
  ; mkTool "delete_namespace" [("name", "string")] ["name"]
  ; mkTool "list_nodes" [] []
  ; mkTool "describe_node" [("node_name", "string")] ["node_name"]
  ; mkTool "cluster_info" [] []
  ; mkTool "list_pods_by_node" [("namespace", "string")] []
  ; mkTool "list_jobs" [("namespace", "string")] []
  ; mkTool "describe_job" [("job_name", "string"); ("namespace", "string")] ["job_name"]
  ; mkTool "list_cronjobs" [("namespace", "string")] []
  ; mkTool "delete_job" [("job_name", "string"); ("namespace", "string")] ["job_name"] ].

Section CallTool.

(** The state the tool modules act on (the cluster, files, processes). *)
Variable W : Type.

(** The awaited tool methods, named as in the source ("pod_tools.get_logs",
    ...): positional arguments in, a text or a raised exception out. *)
Variable ops : string -> list PyVal -> W -> Exc string * W.

(** The frame of [call_tool]: the outer world and the local variable [name],
    which some branches rebind ([name = arguments["name"]]). *)
Record Frame := mkFrame { world : W; name_var : PyVal }.

Definition M (A : Type) : Type := Frame -> Exc A * Frame.

Definition ret {A} (a : A) : M A := fun f => (Ok a, f).

Definition bind {A B} (m : M A) (k : A -> M B) : M B :=
  fun f => match m f with
           | (Ok a, f') => k a f'
           | (Raise e, f') => (Raise e, f')
           end.

Local Notation "x <- m ;; k" := (bind m (fun x => k)) (at level 61, m at next level, right associativity).

(** [arguments[k]]: raises [KeyError] when the key is missing. *)
Definition getitem (arguments : Args) (k : string) : M PyVal :=
  fun f => match dict_get k arguments with
           | Some v => (Ok v, f)
           | None => (Raise (mkExc "KeyError" (repr_str k)), f)
           end.

(** [arguments.get(k, default)] *)
Definition get (arguments : Args) (k : string) (dflt : PyVal) : PyVal :=
  match dict_get k arguments with Some v => v | None => dflt end.

(** [name = <value>] *)
Definition set_name (v : PyVal) : M unit :=
  fun f => (Ok tt, mkFrame (world f) v).

(** [await tool(args...)] *)
Definition invoke (op : string) (xs : list PyVal) : M string :=
  fun f => let '(r, w') := ops op xs (world f) in (r, mkFrame w' (name_var f)).

Definition reply (r : string) : M (list TextContent) := ret [text r].

Definition dflt_ns : PyVal := PStr "default".

(** The [try] body of [call_tool] (lines 488-642). *)
Definition call_tool_body (name : string) (arguments : Args) : M (list TextContent) :=
  if String.eqb name "list_pods" then
    let namespace := get arguments "namespace" dflt_ns in
    r <- invoke "pod_tools.list_pods" [namespace] ;; reply r
  else if String.eqb name "get_pod_logs" then
    pod_name <- getitem arguments "pod_name" ;;
    let namespace := get arguments "namespace" dflt_ns in
    let tail := get arguments "tail" (PInt 100) in
    r <- invoke "pod_tools.get_logs" [pod_name; namespace; tail] ;; reply r
  else if String.eqb name "describe_pod" then
    pod_name <- getitem arguments "pod_name" ;;
    let namespace := get arguments "namespace" dflt_ns in
    r <- invoke "pod_tools.describe" [pod_name; namespace] ;; reply r
  else if String.eqb name "list_deployments" then
    let namespace := get arguments "namespace" dflt_ns in
    r <- invoke "deployment_tools.list_deployments" [namespace] ;; reply r
  else if String.eqb name "scale_deployment" then
    deployment_name <- getitem arguments "deployment_name" ;;
    replicas <- getitem arguments "replicas" ;;
    let namespace := get arguments "namespace" dflt_ns in
    r <- invoke "deployment_tools.scale" [deployment_name; replicas; namespace] ;; reply r
  else if String.eqb name "restart_deployment" then
    deployment_name <- getitem arguments "deployment_name" ;;
    let namespace := get arguments "namespace" dflt_ns in
    r <- invoke "deployment_tools.restart" [deployment_name; namespace] ;; reply r
  else if String.eqb name "apply_yaml" then
    yaml_content <- getitem arguments "yaml_content" ;;
    r <- invoke "yaml_tools.apply" [yaml_content] ;; reply r
  else if String.eqb name "get_yaml" then
    kind <- getitem arguments "kind" ;;
    nm <- getitem arguments "name" ;;
    _ <- set_name nm ;;
    let namespace := get arguments "namespace" PNone in
    r <- invoke "yaml_tools.get" [kind; nm; namespace] ;; reply r
  else if String.eqb name "list_events" then
    let namespace := get arguments "namespace" PNone in
    let limit := get arguments "limit" (PInt 50) in
    r <- invoke "event_tools.list_events" [namespace; limit] ;; reply r
  else if String.eqb name "list_services" then
    let namespace := get arguments "namespace" dflt_ns in
    r <- invoke "service_tools.list_services" [namespace] ;; reply r
  else if String.eqb name "describe_service" then
    service_name <- getitem arguments "service_name" ;;
    let namespace := get arguments "namespace" dflt_ns in
    r <- invoke "service_tools.describe" [service_name; namespace] ;; reply r
  else if String.eqb name "list_configmaps" then
    let namespace := get arguments "namespace" dflt_ns in
    r <- invoke "configmap_secret_tools.list_configmaps" [namespace] ;; reply r
  else if String.eqb name "get_configmap" then
    nm <- getitem arguments "name" ;;
    _ <- set_name nm ;;
    let namespace := get arguments "namespace" dflt_ns in
    r <- invoke "configmap_secret_tools.get_configmap" [nm; namespace] ;; reply r
  else if String.eqb name "list_secrets" then
    let namespace := get arguments "namespace" dflt_ns in
    r <- invoke "configmap_secret_tools.list_secrets" [namespace] ;; reply r
  else if String.eqb name "get_secret" then
    nm <- getitem arguments "name" ;;
    _ <- set_name nm ;;
    let namespace := get arguments "namespace" dflt_ns in
    let decode := get arguments "decode" (PBool true) in
    r <- invoke "configmap_secret_tools.get_secret" [nm; namespace; decode] ;; reply r
  else if String.eqb name "list_namespaces" then
    r <- invoke "namespace_tools.list_namespaces" [] ;; reply r
  else if String.eqb name "create_namespace" then
    nm <- getitem arguments "name" ;;
    _ <- set_name nm ;;
    let labels := get arguments "labels" PNone in
    r <- invoke "namespace_tools.create_namespace" [nm; labels] ;; reply r
  else if String.eqb name "delete_namespace" then
    nm <- getitem arguments "name" ;;
    _ <- set_name nm ;;
    r <- invoke "namespace_tools.delete_namespace" [nm] ;; reply r
  else if String.eqb name "list_nodes" then
    r <- invoke "node_tools.list_nodes" [] ;; reply r
  else if String.eqb name "describe_node" then
    node_name <- getitem arguments "node_name" ;;
    r <- invoke "node_tools.describe_node" [node_name] ;; reply r
  else if String.eqb name "cluster_info" then
    r <- invoke "node_tools.cluster_info" [] ;; reply r
  else if String.eqb name "list_pods_by_node" then
    let namespace := get arguments "namespace" PNone in
    r <- invoke "node_tools.list_pods_by_node" [namespace] ;; reply r
  else if String.eqb name "list_jobs" then
    let namespace := get arguments "namespace" dflt_ns in
    r <- invoke "job_tools.list_jobs" [namespace] ;; reply r
  else if String.eqb name "describe_job" then
    job_name <- getitem arguments "job_name" ;;
    let namespace := get arguments "namespace" dflt_ns in
    r <- invoke "job_tools.describe_job" [job_name; namespace] ;; reply r
  else if String.eqb name "list_cronjobs" then
    let namespace := get arguments "namespace" dflt_ns in
    r <- invoke "job_tools.list_cronjobs" [namespace] ;; reply r
  else if String.eqb name "delete_job" then
    job_name <- getitem arguments "job_name" ;;
    let namespace := get arguments "namespace" dflt_ns in
    r <- invoke "job_tools.delete_job" [job_name; namespace] ;; reply r
  else reply ("Unknown tool: " ++ name).

(** [call_tool(name, arguments)]: the body under [except Exception]. *)
Definition call_tool (name : string) (arguments : Args) (w : W) : list TextContent * W :=
  match call_tool_body name arguments (mkFrame w (PStr name)) with
  | (Ok r, f) => (r, world f)
  | (Raise e, f) =>
      ([text ("Error executing tool " ++ py_str (name_var f) ++ ": " ++ exc_str e)], world f)
  end.

End CallTool.

(** Example tool methods: every call raises. *)
Definition raising_ops (_ : string) (_ : list PyVal) (w : unit) : Exc string * unit :=
  (Raise (mkExc "RuntimeError" "boom"), w).


End Dispatch.


(** ** src/tools/yaml_ops.py *)
Module YamlOps.
Import Dispatch.
Local Open Scope st_scope.

(** The local machine and the cluster as [YamlOpsTools] sees them: files with
    their contents, the subprocesses run (argv and timeout), and the read
    calls sent to the cluster API (method, name, namespace). *)
Record Sys := mkSys
  { files : list (string * string)
  ; runs : list (list string * Z)
  ; api_calls : list (string * string * string) }.

(** Result of [subprocess.run(..., capture_output=True, text=True,
    timeout=...)]: a completed process, or an exception it raises
    ([TimeoutExpired], [FileNotFoundError], ...). *)
Inductive RunOutcome :=
| Completed : Z -> string -> string -> RunOutcome   (* returncode, stdout, stderr *)
| RunRaised : PyExc -> RunOutcome.

(** The classes caught by [except yaml.YAMLError]. *)
Definition is_yaml_error (c : string) : bool :=
  existsb (String.eqb c)
    ["YAMLError"; "MarkedYAMLError"; "ReaderError"; "ScannerError"; "ParserError";
     "ComposerError"; "ConstructorError"; "EmitterError"; "SerializerError";
     "RepresenterError"].

(** [r is None] *)
Definition is_none (v : PyVal) : bool := match v with PNone => true | _ => false end.

Definition tmp_name (k : nat) : string := "/tmp/tmp" ++ str_nat k ++ ".yaml".

(** [tempfile.mkstemp]: tries names until one is free ([O_EXCL]); after
    [TMP_MAX] attempts it raises [FileExistsError]. *)
Fixpoint pick_tmp (used : list (string * string)) (k fuel : nat) : option string :=
  match fuel with
  | O => None
  | S fuel' =>
      if existsb (fun f => String.eqb (fst f) (tmp_name k)) used
      then pick_tmp used (S k) fuel' else Some (tmp_name k)
  end.

Definition TMP_MAX : nat := 10000.

(** [try: os.unlink(path) except: pass] *)
Definition unlink_quiet (path : string) (s : Sys) : Sys :=
  mkSys (filter (fun f => negb (String.eqb (fst f) path)) (files s)) (runs s) (api_calls s).

Definition lf : string := String (ascii_of_nat 10) EmptyString.

Definition timeout_msg : string := "✗ Error: kubectl apply timed out after 60 seconds".

Definition no_resources_msg : string := "✗ Error: No valid resources found in YAML".

(** The [api_map] of [YamlOpsTools.get]: kind to read method. *)
Definition api_map : list (string * string) :=
  [("Pod", "read_namespaced_pod"); ("Deployment", "read_namespaced_deployment");
   ("Service", "read_namespaced_service"); ("ConfigMap", "read_namespaced_config_map");
   ("Secret", "read_namespaced_secret")].

Fixpoint lookup_kind (kind : string) (m : list (string * string)) : option string :=
  match m with
  | [] => None
  | (k, v) :: m' => if String.eqb kind k then Some v else lookup_kind kind m'
  end.

Section Tools.

(** [yaml.safe_load_all(content)], forced by [list(...)]. *)
Variable safe_load_all : string -> Exc (list PyVal).
(** [tmp_file.write(content)]: [None] when the write succeeds. *)
Variable tmp_write : string -> option PyExc.
(** The kubectl process, given the files it can read, its argv and timeout. *)
Variable kubectl_run : list (string * string) -> list string -> Z -> RunOutcome.
(** [read_namespaced_*] of the cluster API: method, name, namespace. *)
Variable read_resource : string -> string -> string -> ApiResult PyVal.
(** [yaml.dump(api_client.sanitize_for_serialization(r), ...)] *)
Variable dump : PyVal -> Exc string.

(** [with tempfile.NamedTemporaryFile(mode='w', suffix='.yaml', delete=False)
    as tmp_file: tmp_file.write(yaml_content); tmp_file_path = tmp_file.name] *)
Definition named_temporary_file (yaml_content : string) : ST Sys string :=
  fun s =>
    match pick_tmp (files s) 0 TMP_MAX with
    | None => (Raise (mkExc "FileExistsError" "No usable temporary file name found"), s)
    | Some path =>
        match tmp_write yaml_content with
        | Some e => (Raise e, mkSys ((path, "") :: files s) (runs s) (api_calls s))
        | None => (Ok path, mkSys ((path, yaml_content) :: files s) (runs s) (api_calls s))
        end
    end.

(** [subprocess.run(argv, capture_output=True, text=True, timeout=t)] *)
Definition subprocess_run (argv : list string) (timeout : Z) : ST Sys (Z * string * string) :=
  fun s =>
    let s' := mkSys (files s) (runs s ++ [(argv, timeout)]) (api_calls s) in
    match kubectl_run (files s) argv timeout with
    | Completed rc out err => (Ok (rc, out, err), s')
    | RunRaised e => (Raise e, s')
    end.

(** The outer [try] body of [YamlOpsTools.apply] (lines 31-63). *)
Definition apply_body (yaml_content : string) : ST Sys string :=
  fun s =>
    match safe_load_all yaml_content with
    | Raise e =>
        if is_yaml_error (exc_class e)
        then (Ok ("✗ YAML parsing error: " ++ exc_str e), s)
        else (Raise e, s)
    | Ok resources =>
        if match resources with [] => true | _ => false end || forallb is_none resources
        then (Ok no_resources_msg, s)
        else
          (tmp_file_path <- named_temporary_file yaml_content ;;
           st_finally
             (result <- subprocess_run ["kubectl"; "apply"; "-f"; tmp_file_path] 60 ;;
              let '(returncode, stdout, stderr) := result in
              if (returncode =? 0)%Z
              then st_ret ("✓ Successfully applied YAML:" ++ lf ++ lf ++ stdout)
              else st_ret ("✗ Error applying YAML:" ++ lf ++ lf ++ stderr))
             (unlink_quiet tmp_file_path)) s
    end.

(** [YamlOpsTools.apply(yaml_content)] with its outer handlers. *)
Definition apply (yaml_content : string) (s : Sys) : string * Sys :=
  match apply_body yaml_content s with
  | (Ok r, s') => (r, s')
  | (Raise e, s') =>
      if String.eqb (exc_class e) "TimeoutExpired" then (timeout_msg, s')
      else if String.eqb (exc_class e) "FileNotFoundError"
      then ("✗ Error: kubectl command not found. Make sure kubectl is installed and in PATH.", s')
      else ("✗ Unexpected error: " ++ exc_str e, s')
  end.

(** [YamlOpsTools.get(kind, name, namespace)] (lines 72-107); building the
    [api_map] client objects sends no request. *)
Definition get (kind name : string) (namespace : option string) (s : Sys) : string * Sys :=
  match lookup_kind kind api_map with
  | None =>
      ("Unsupported resource kind: " ++ kind ++ ". Supported: "
       ++ String.concat ", " (map fst api_map), s)
  | Some method_name =>
      if truthy_opt namespace then
        let ns := str_opt namespace in
        let s' := mkSys (files s) (runs s) (api_calls s ++ [(method_name, name, ns)]) in
        match read_resource method_name name ns with
        | Returned resource =>
            match dump resource with
            | Ok yaml_output => ("YAML for " ++ kind ++ "/" ++ name ++ ":" ++ lf ++ lf ++ yaml_output, s')
            | Raise e => ("Unexpected error: " ++ exc_str e, s')
            end
        | ApiError e =>
            if (api_status e =? 404)%Z
            then ("Resource " ++ kind ++ "/" ++ name ++ " not found in namespace '" ++ ns ++ "'", s')
            else ("Error getting resource: " ++ api_reason e ++ " - " ++ api_body e, s')
        | OtherError e => ("Unexpected error: " ++ exc_str e, s')
        end
      else ("Namespace required for " ++ kind ++ " resources", s)
  end.

End Tools.

Definition kubectl_argv (path : string) : list string := ["kubectl"; "apply"; "-f"; path].

(** Example collaborators: a parser that reads the empty text as no
    documents and any other text as one document, a write that succeeds, a
    kubectl run that times out and an empty system. *)
Definition toy_load (c : string) : Exc (list PyVal) :=
  if String.eqb c "" then Ok [] else Ok [PStr c].

Definition write_ok (_ : string) : option PyExc := None.

Definition kubectl_timeout (_ : list (string * string)) (_ : list string) (_ : Z) : RunOutcome :=
  RunRaised (mkExc "TimeoutExpired" "Command timed out after 60 seconds").

Definition sys0 : Sys := mkSys [] [] [].

Definition read_none (_ _ _ : string) : ApiResult PyVal :=
  OtherError (mkExc "RuntimeError" "no cluster").

Definition dump_ok (_ : PyVal) : Exc string := Ok "".

(** Example collaborators for the failing paths: a write that fails, a
    system without kubectl, a cluster without the requested resource. *)
Definition write_fails (_ : string) : option PyExc :=
  Some (mkExc "OSError" "[Errno 28] No space left on device").

Definition kubectl_missing (_ : list (string * string)) (_ : list string) (_ : Z) : RunOutcome :=
  RunRaised (mkExc "FileNotFoundError" "[Errno 2] No such file or directory: 'kubectl'").

Definition read_not_found (_ _ _ : string) : ApiResult PyVal :=
  ApiError (mkApiExc 404 "Not Found" "").

End YamlOps.

(** ** src/tools/deployments.py *)
Module Deployments.
Local Open Scope st_scope.

(** The fields of [V1Deployment] that [scale] touches; the rest of the
    object is carried along unchanged. *)
Record DeploymentSpec := mkDeploymentSpec
  { replicas : option Z; spec_rest : list (string * string) }.

Record Deployment := mkDeployment
  { dep_name : string; dep_namespace : string; dep_spec : DeploymentSpec;
    dep_rest : list (string * string) }.

(** [deployment.spec.replicas = replicas] *)
Definition set_replicas (d : Deployment) (n : Z) : Deployment :=
  mkDeployment (dep_name d) (dep_namespace d)
    (mkDeploymentSpec (Some n) (spec_rest (dep_spec d))) (dep_rest d).

(** The requests sent through [AppsV1Api]. *)
Inductive AppsCall :=
| ReadNamespacedDeployment : string -> string -> AppsCall         (* name, namespace *)
| PatchNamespacedDeployment : string -> string -> Deployment -> AppsCall.

Section Scale.

(** The cluster behind [AppsV1Api]. *)
Variable C : Type.
Variable read_api : C -> string -> string -> ApiResult Deployment.
Variable patch_api : C -> string -> string -> Deployment -> ApiResult unit * C.

(** The tool's view: the requests it has sent, and the cluster. *)
Definition S : Type := list AppsCall * C.

Definition api_exc (e : ApiException) : PyExc := mkExc "ApiException" (api_reason e).

(** Results of the client carry the [ApiException] itself so that the
    handlers can read its status. *)
Inductive Failure := FApi : ApiException -> Failure | FOther : PyExc -> Failure.

Definition read_namespaced_deployment (name namespace : string) (s : S)
  : (Deployment + Failure) * S :=
  let s' := ((fst s ++ [ReadNamespacedDeployment name namespace])%list, snd s) in
  match read_api (snd s) name namespace with
  | Returned d => (inl d, s')
  | ApiError e => (inr (FApi e), s')
  | OtherError e => (inr (FOther e), s')
  end.

Definition patch_namespaced_deployment (name namespace : string) (body : Deployment) (s : S)
  : (unit + Failure) * S :=
  let '(r, c') := patch_api (snd s) name namespace body in
  let s' := ((fst s ++ [PatchNamespacedDeployment name namespace body])%list, c') in
  match r with
  | Returned u => (inl u, s')
  | ApiError e => (inr (FApi e), s')
  | OtherError e => (inr (FOther e), s')
  end.

(** [DeploymentTools.scale(deployment_name, replicas, namespace)]
    (lines 51-77). *)
Definition scale (deployment_name : string) (replicas : Z) (namespace : string) (s : S)
  : string * S :=
  let handle (f : Failure) (s' : S) : string * S :=
    match f with
    | FApi e =>
        if (api_status e =? 404)%Z
        then ("Deployment '" ++ deployment_name ++ "' not found in namespace '" ++ namespace ++ "'", s')
        else ("Error scaling deployment: " ++ api_reason e ++ " - " ++ api_body e, s')
    | FOther e => ("Unexpected error: " ++ exc_str e, s')
    end in
  match read_namespaced_deployment deployment_name namespace s with
  | (inr f, s1) => handle f s1
  | (inl deployment, s1) =>
      let deployment := set_replicas deployment replicas in
      match patch_namespaced_deployment deployment_name namespace deployment s1 with
      | (inr f, s2) => handle f s2
      | (inl _, s2) =>
          ("Successfully scaled deployment '" ++ deployment_name ++ "' to " ++ str_Z replicas
           ++ " replicas in namespace '" ++ namespace ++ "'", s2)
      end
  end.

End Scale.

Definition scaled_msg (deployment_name : string) (n : Z) (namespace : string) : string :=
  "Successfully scaled deployment '" ++ deployment_name ++ "' to " ++ str_Z n
  ++ " replicas in namespace '" ++ namespace ++ "'".


(** Example API: deployment [web] in [default] with two replicas; patches
    succeed. *)
Definition web : Deployment :=
  mkDeployment "web" "default" (mkDeploymentSpec (Some 2%Z) []) [].

Definition read_web (_ : unit) (_ _ : string) : ApiResult Deployment := Returned web.

Definition patch_ok (c : unit) (_ _ : string) (_ : Deployment) : ApiResult unit * unit :=
  (Returned tt, c).

End Deployments.

(** ** src/tools/namespaces.py *)
Module Namespaces.
Import Dispatch.

(** Python truthiness of an argument value. *)
Definition py_truthy (v : PyVal) : bool :=
  match v with
  | PNone => false
  | PStr s => negb (String.eqb s "")
  | PInt z => negb (z =? 0)%Z
  | PFloat r => negb (String.eqb r "0.0" || String.eqb r "-0.0")
  | PBool b => b
  | PDict kvs => match kvs with [] => false | _ => true end
  | PList xs => match xs with [] => false | _ => true end
  end.

(** [client.V1Namespace(metadata=client.V1ObjectMeta(name=..., labels=...))] *)
Record V1Namespace := mkV1Namespace { ns_name : string; ns_labels : PyVal }.

Section Create.

Variable C : Type.
(** [CoreV1Api.create_namespace(body=...)] against the cluster. *)
Variable create_api : C -> V1Namespace -> ApiResult unit * C.

(** [NamespaceTools.create_namespace(name, labels)] (lines 49-69). *)
Definition create_namespace (name : string) (labels : PyVal) (c : C) : string * C :=
  let namespace_body := mkV1Namespace name (if py_truthy labels then labels else PDict []) in
  match create_api c namespace_body with
  | (Returned _, c') => ("Successfully created namespace '" ++ name ++ "'", c')
  | (ApiError e, c') =>
      if (api_status e =? 409)%Z then ("Namespace '" ++ name ++ "' already exists", c')
      else ("Error creating namespace: " ++ api_reason e ++ " - " ++ api_body e, c')
  | (OtherError e, c') => ("Unexpected error: " ++ exc_str e, c')
  end.

End Create.

(** The API server's handling of a namespace creation: the name must be a
    DNS-1123 label (else 422 Invalid), and must not exist yet (else 409
    AlreadyExists); otherwise the namespace is stored. *)
Definition is_lower_alnum (a : ascii) : bool :=
  let n := nat_of_ascii a in (Nat.leb 97 n && Nat.leb n 122) || (Nat.leb 48 n && Nat.leb n 57).

Definition dns1123_label (s : string) : bool :=
  let cs := list_ascii_of_string s in
  match cs with
  | [] => false
  | c0 :: _ =>
      Nat.leb (List.length cs) 63
      && forallb (fun a => is_lower_alnum a || Nat.eqb (nat_of_ascii a) 45) cs
      && is_lower_alnum c0 && is_lower_alnum (last cs c0)
  end.

Record Cluster := mkCluster { stored : list V1Namespace }.

Definition apiserver_create (c : Cluster) (body : V1Namespace) : ApiResult unit * Cluster :=
  if negb (dns1123_label (ns_name body)) then
    (ApiError (mkApiExc 422 "Unprocessable Entity" "Namespace is invalid"), c)
  else if existsb (fun n => String.eqb (ns_name n) (ns_name body)) (stored c) then
    (ApiError (mkApiExc 409 "Conflict" "namespaces already exists"), c)
  else (Returned tt, mkCluster (body :: stored c)).

Definition already_exists_msg (name : string) : string :=
  "Namespace '" ++ name ++ "' already exists".


Definition empty_cluster : Cluster := mkCluster [].

End Namespaces.

(** ** src/tools/nodes.py *)
Module Nodes.

(** The fields of [V1Node] read by [list_pods_by_node]: the name and the
    status conditions (type, status). The API server omits an empty
    condition list, which the client then gives as [None]; the code
    iterates it unguarded. *)
Record Node := mkNode { node_name : string; conditions : option (list (string * string)) }.

(** [for c in None]: the exception Python raises. *)
Definition none_iter_error : PyExc := mkExc "TypeError" "'NoneType' object is not iterable".

(** The fields of [V1Pod] read: name, namespace, [spec.node_name] and
    [status.phase]. *)
Record Pod := mkPod
  { pod_name : string; pod_namespace : string;
    spec_node_name : option string; phase : option string }.

(** Python's [str] ordering: lexicographic on code points. *)
Fixpoint str_lt (a b : string) : bool :=
  match a, b with
  | EmptyString, EmptyString => false
  | EmptyString, String _ _ => true
  | String _ _, EmptyString => false
  | String x a', String y b' =>
      Nat.ltb (nat_of_ascii x) (nat_of_ascii y)
      || (Nat.eqb (nat_of_ascii x) (nat_of_ascii y) && str_lt a' b')
  end.

(** [sorted(keys)] for the distinct keys of a dict. *)
Fixpoint insert_key (k : string) (l : list string) : list string :=
  match l with
  | [] => [k]
  | h :: t => if str_lt k h then k :: l else h :: insert_key k t
  end.

Fixpoint sort_keys (l : list string) : list string :=
  match l with
  | [] => []
  | k :: l' => insert_key k (sort_keys l')
  end.

(** The dict [pods_by_node], as its items in insertion order. *)
Definition Dict := list (string * list Pod).

Fixpoint dict_lookup (k : string) (d : Dict) : option (list Pod) :=
  match d with
  | [] => None
  | (k', v) :: d' => if String.eqb k k' then Some v else dict_lookup k d'
  end.

(** [if k not in d: d[k] = []] followed by [d[k].append(pod)] *)
Fixpoint dict_append (k : string) (p : Pod) (d : Dict) : Dict :=
  match d with
  | [] => [(k, [p])]
  | (k', v) :: d' => if String.eqb k k' then (k', (v ++ [p])%list) :: d' else (k', v) :: dict_append k p d'
  end.

Definition dict_mem (k : string) (d : Dict) : bool :=
  match dict_lookup k d with Some _ => true | None => false end.

(** The grouping loop (lines 124-130): pods with a truthy [node_name]. *)
Definition group_step (d : Dict) (pod : Pod) : Dict :=
  match spec_node_name pod with
  | Some n => if String.eqb n "" then d else dict_append n pod d
  | None => d
  end.

(** The loop adding the nodes without pods (lines 132-135). *)
Definition node_step (d : Dict) (node : Node) : Dict :=
  if dict_mem (node_name node) d then d else (d ++ [(node_name node, [])])%list.

Definition pods_by_node (nodes : list Node) (pods : list Pod) : Dict :=
  fold_left node_step nodes (fold_left group_step pods []).

(** [pods_by_node[node_name]] for a key of the dict. *)
Definition dict_get (k : string) (d : Dict) : list Pod :=
  match dict_lookup k d with Some v => v | None => [] end.

(** The groups in rendering order: [sorted(pods_by_node.keys())]. *)
Definition node_groups (d : Dict) : list (string * list Pod) :=
  map (fun k => (k, dict_get k d)) (sort_keys (map fst d)).

(** [next((n for n in nodes.items if n.metadata.name == node_name), None)] *)
Fixpoint find_node (k : string) (nodes : list Node) : option Node :=
  match nodes with
  | [] => None
  | n :: ns => if String.eqb (node_name n) k then Some n else find_node k ns
  end.

(** [{c.type: c.status for c in node.status.conditions if c.type == 'Ready'}.get('Ready', 'Unknown')] *)
Definition ready_status (n : Node) : Exc string :=
  match conditions n with
  | None => Raise none_iter_error
  | Some cs => Ok (fold_left (fun acc c => if String.eqb (fst c) "Ready" then snd c else acc) cs "Unknown")
  end.

Definition nl : string := String (ascii_of_nat 10) EmptyString.

Definition node_line (nodes : list Node) (k : string) : Exc string :=
  match find_node k nodes with
  | Some node =>
      match ready_status node with
      | Ok ready => Ok ("Node: " ++ k ++ " (Ready=" ++ ready ++ ")" ++ nl)
      | Raise e => Raise e
      end
  | None => Ok ("Node: " ++ k ++ nl)
  end.

Definition pod_line (pod : Pod) : string :=
  "    - " ++ pod_name pod ++ " (" ++ str_opt (phase pod) ++ ") [ns: " ++ pod_namespace pod ++ "]" ++ nl.

(** The pod lines of one node block and its closing blank line. *)
Definition pods_block (node_pods : list Pod) : string :=
  match node_pods with
  | [] => "  Pods: None" ++ nl
  | _ => "  Pods (" ++ str_nat (List.length node_pods) ++ "):" ++ nl
         ++ String.concat "" (map pod_line node_pods)
  end
  ++ nl.

(** One node block (lines 146-164). *)
Definition render_group (nodes : list Node) (g : string * list Pod) : Exc string :=
  let '(k, node_pods) := g in
  match node_line nodes k with
  | Ok line => Ok (line ++ pods_block node_pods)
  | Raise e => Raise e
  end.

(** The rendering loop: [result += ...] per block; an exception leaves the
    loop (and the [try]). *)
Fixpoint render_groups (nodes : list Node) (gs : list (string * list Pod)) : Exc string :=
  match gs with
  | [] => Ok ""
  | g :: gs' =>
      match render_group nodes g with
      | Raise e => Raise e
      | Ok b => match render_groups nodes gs' with
                | Ok rest => Ok (b ++ rest)
                | Raise e => Raise e
                end
      end
  end.

(** [pods.items = [p for p in pods.items if p.metadata.namespace == namespace]]
    when [namespace] is truthy. *)
Definition pods_in (namespace : option string) (items : list Pod) : list Pod :=
  if truthy_opt namespace
  then filter (fun p => String.eqb (pod_namespace p) (str_opt namespace)) items
  else items.

Definition scope_of (namespace : option string) : string :=
  if truthy_opt namespace then "namespace '" ++ str_opt namespace ++ "'" else "all namespaces".

(** [NodeTools.list_pods_by_node(namespace)] (lines 112-171), given the
    answers of [list_node()] and [list_pod_for_all_namespaces()]. *)
Definition list_pods_by_node (nodes_r : ApiResult (list Node)) (pods_r : ApiResult (list Pod))
    (namespace : option string) : string :=
  match nodes_r with
  | ApiError e => "Error listing pods by node: " ++ api_reason e ++ " - " ++ api_body e
  | OtherError e => "Unexpected error: " ++ exc_str e
  | Returned nodes =>
      match pods_r with
      | ApiError e => "Error listing pods by node: " ++ api_reason e ++ " - " ++ api_body e
      | OtherError e => "Unexpected error: " ++ exc_str e
      | Returned items =>
          let d := pods_by_node nodes (pods_in namespace items) in
          match d with
          | [] => "No nodes or pods found"
          | _ =>
              match render_groups nodes (node_groups d) with
              | Ok body => "Pods by Node (" ++ scope_of namespace ++ "):" ++ nl ++ nl ++ body
              | Raise e => "Unexpected error: " ++ exc_str e
              end
          end
      end
  end.

(** A pod counted under node [k]: scheduled there, with a truthy name. *)
Definition scheduled_on (k : string) (p : Pod) : bool :=
  match spec_node_name p with
  | Some n => negb (String.eqb n "") && String.eqb n k
  | None => false
  end.

(** A pod with an assigned node. *)
Definition scheduled (p : Pod) : bool := truthy_opt (spec_node_name p).


(** Appending to an optional group. *)
Definition opt_app (o : option (list Pod)) (l : list Pod) : option (list Pod) :=
  match o, l with
  | None, [] => None
  | None, _ => Some l
  | Some v, _ => Some (v ++ l)%list
  end.

(** Example cluster: node [n2] is Ready, node [n1] has no pods, pod [b] is
    pending without a node. *)
Definition ex_nodes : list Node :=
  [mkNode "n2" (Some [("Ready", "True")]); mkNode "n1" (Some [("Ready", "False")])].


Definition pod_a : Pod := mkPod "a" "default" (Some "n2") (Some "Running").

Definition pod_b : Pod := mkPod "b" "default" None (Some "Pending").

Definition ex_pods : list Pod := [pod_a; pod_b].

(** A pod scheduled on a node that [list_node()] did not return. *)
Definition pod_c : Pod := mkPod "c" "default" (Some "n9") (Some "Running").

End Nodes.

(** ** src/tools/nodes.py: [list_nodes] and [cluster_info] *)
Module NodeList.

(** [node.status.node_info] *)
Record NodeSystemInfo := mkNodeSystemInfo
  { operating_system : string; architecture : string;
    kubelet_version : string; container_runtime_version : string }.

(** The fields of [V1Node] that [list_nodes] and [cluster_info] read. A
    label or allocatable dict is the list of its items; [None] is a missing
    dict. Conditions are (type, status) pairs, [None] when the node has not
    posted any (the API server omits the empty list); [str(creation_timestamp)]
    is kept as a string. *)
Record KNode := mkKNode
  { kn_name : string
  ; kn_created : string
  ; kn_labels : option (list (string * string))
  ; kn_conditions : option (list (string * string))
  ; kn_node_info : option NodeSystemInfo
  ; kn_allocatable : option (list (string * string)) }.

Definition nl : string := String (ascii_of_nat 10) EmptyString.

(** [d.get(k)] on a dict of strings. *)
Fixpoint assoc_get (k : string) (d : list (string * string)) : option string :=
  match d with
  | [] => None
  | (k', v) :: d' => if String.eqb k k' then Some v else assoc_get k d'
  end.

(** [d[k] = v]: an existing key keeps its place, a new one goes last. *)
Fixpoint dict_set (k v : string) (d : list (string * string)) : list (string * string) :=
  match d with
  | [] => [(k, v)]
  | (k', v') :: d' => if String.eqb k k' then (k', v) :: d' else (k', v') :: dict_set k v d'
  end.

(** [d.get(k, dflt)] *)
Definition get_or (k dflt : string) (d : list (string * string)) : string :=
  match assoc_get k d with Some v => v | None => dflt end.

(** Truthiness of a dict. *)
Definition dict_truthy (o : option (list (string * string))) : bool :=
  match o with Some (_ :: _) => true | _ => false end.

(** [a or b] where [a] is [d.get(k)] on a dict of strings. *)
Definition or_str (o : option string) (b : string) : string :=
  match o with Some v => if String.eqb v "" then b else v | None => b end.

Definition watched_conditions : list string := ["Ready"; "MemoryPressure"; "DiskPressure"; "PIDPressure"].

(** [{c.type: c.status for c in node.status.conditions if c.type in [...]}] *)
Definition status_conditions (conds : list (string * string)) : list (string * string) :=
  fold_left (fun d c => if existsb (String.eqb (fst c)) watched_conditions
                        then dict_set (fst c) (snd c) d else d) conds [].

Definition cp_label : string := "node-role.kubernetes.io/control-plane".
Definition master_label : string := "node-role.kubernetes.io/master".

(** [labels.get(cp) or labels.get(master) or 'worker'] *)
Definition role (labels : list (string * string)) : string :=
  or_str (assoc_get cp_label labels) (or_str (assoc_get master_label labels) "worker").

(** The block of one node in [list_nodes] (lines 34-57); iterating
    [None] conditions raises. *)
Definition render_node (n : KNode) : Exc string :=
  match kn_conditions n with
  | None => Raise Nodes.none_iter_error
  | Some conds =>
  Ok ("  - " ++ kn_name n ++ nl
  ++ "    Status: Ready=" ++ get_or "Ready" "Unknown" (status_conditions conds) ++ nl
  ++ match kn_node_info n with
     | Some i =>
         "    OS: " ++ operating_system i ++ "/" ++ architecture i ++ nl
         ++ "    Kubernetes: " ++ kubelet_version i ++ nl
         ++ "    Container Runtime: " ++ container_runtime_version i ++ nl
     | None => ""
     end
  ++ (if dict_truthy (kn_allocatable n) then
        let a := match kn_allocatable n with Some a => a | None => [] end in
        "    Allocatable: CPU=" ++ get_or "cpu" "N/A" a ++ ", Memory=" ++ get_or "memory" "N/A" a ++ nl
      else "")
  ++ (if dict_truthy (kn_labels n) then
        "    Role: " ++ role (match kn_labels n with Some l => l | None => [] end) ++ nl
      else "")
  ++ "    Age: " ++ kn_created n ++ nl
  ++ nl)
  end.

(** The loop over [nodes.items]; an exception leaves it. *)
Fixpoint render_nodes (items : list KNode) : Exc string :=
  match items with
  | [] => Ok ""
  | n :: items' =>
      match render_node n with
      | Raise e => Raise e
      | Ok b => match render_nodes items' with
                | Ok rest => Ok (b ++ rest)
                | Raise e => Raise e
                end
      end
  end.

(** [NodeTools.list_nodes()] given the answer of [list_node()]. *)
Definition list_nodes (nodes_r : ApiResult (list KNode)) : string :=
  match nodes_r with
  | ApiError e => "Error listing nodes: " ++ api_reason e ++ " - " ++ api_body e
  | OtherError e => "Unexpected error: " ++ exc_str e
  | Returned [] => "No nodes found in cluster"
  | Returned items =>
      match render_nodes items with
      | Ok body => "Cluster Nodes:" ++ nl ++ nl ++ body
      | Raise e => "Unexpected error: " ++ exc_str e
      end
  end.

(** [key in labels] for [labels = node.metadata.labels or {}]. *)
Definition has_label (k : string) (n : KNode) : bool :=
  existsb (fun kv => String.eqb (fst kv) k) (match kn_labels n with Some l => l | None => [] end).

Definition is_control_plane (n : KNode) : bool :=
  has_label cp_label n || has_label master_label n.

(** The counting loop of [cluster_info] (lines 180-188). *)
Definition count_roles (nodes : list KNode) : nat * nat :=
  fold_left (fun acc n => let '(cp, wk) := acc in
                          if is_control_plane n then (S cp, wk) else (cp, S wk)) nodes (0, 0).

(** [NodeTools.cluster_info()] given the answers of [list_node()] and
    [list_namespace()], called in that order. *)
Definition cluster_info {NS : Type} (nodes_r : ApiResult (list KNode)) (nss_r : ApiResult (list NS))
  : string :=
  let err (e : ApiException) := "Error getting cluster info: " ++ api_reason e ++ " - " ++ api_body e in
  match nodes_r with
  | ApiError e => err e
  | OtherError e => "Unexpected error: " ++ exc_str e
  | Returned nodes =>
      match nss_r with
      | ApiError e => err e
      | OtherError e => "Unexpected error: " ++ exc_str e
      | Returned nss =>
          let '(control_plane, workers) := count_roles nodes in
          "Cluster Information:" ++ nl ++ nl
          ++ "Total Nodes: " ++ str_nat (List.length nodes) ++ nl
          ++ "  Control Plane: " ++ str_nat control_plane ++ nl
          ++ "  Workers: " ++ str_nat workers ++ nl
          ++ "Total Namespaces: " ++ str_nat (List.length nss) ++ nl
          ++ match nodes with
             | n0 :: _ =>
                 match kn_node_info n0 with
                 | Some i => "Kubernetes Version: " ++ kubelet_version i ++ nl
                 | None => ""
                 end
             | [] => ""
             end
      end
  end.

(** Example: a control-plane node labelled the kubeadm way (empty value). *)
Definition kubeadm_cp : KNode :=
  mkKNode "cp-1" "2024-01-01 00:00:00+00:00" (Some [(cp_label, "")])
    (Some [("Ready", "True")]) None None.

(** Example: a node that has not posted any condition yet. *)
Definition fresh_knode : KNode :=
  mkKNode "n3" "2024-01-01 00:00:00+00:00" None None None None.

End NodeList.

(** ** src/tools/deployments.py: [restart] *)
Module DeploymentRestart.

(** The fields of [V1Deployment] that [restart] touches:
    [spec.template.metadata.annotations] (a dict or [None]); the other
    fields are carried along unchanged. *)
Record TemplateMetadata := mkTemplateMetadata
  { annotations : option (list (string * string)); tmeta_rest : list (string * string) }.

Record RSpec := mkRSpec
  { rs_replicas : option Z; template_metadata : TemplateMetadata; rs_rest : list (string * string) }.

Record RDeployment := mkRDeployment
  { rd_name : string; rd_namespace : string; rd_spec : RSpec; rd_rest : list (string * string) }.

Definition restarted_at : string := "kubectl.kubernetes.io/restartedAt".

(** [if annotations is None: annotations = {}] followed by
    [annotations["kubectl.kubernetes.io/restartedAt"] = now]. *)
Definition set_restarted_at (d : RDeployment) (now : string) : RDeployment :=
  let tm := template_metadata (rd_spec d) in
  let ann := match annotations tm with None => [] | Some a => a end in
  mkRDeployment (rd_name d) (rd_namespace d)
    (mkRSpec (rs_replicas (rd_spec d))
       (mkTemplateMetadata (Some (NodeList.dict_set restarted_at now ann)) (tmeta_rest tm))
       (rs_rest (rd_spec d)))
    (rd_rest d).

(** The annotation dict of the pod template ([None] read as empty). *)
Definition ann_of (d : RDeployment) : list (string * string) :=
  match annotations (template_metadata (rd_spec d)) with None => [] | Some a => a end.

Inductive RCall :=
| RRead : string -> string -> RCall
| RPatch : string -> string -> RDeployment -> RCall.

Section Restart.

Variable C : Type.
Variable read_api : C -> string -> string -> ApiResult RDeployment.
Variable patch_api : C -> string -> string -> RDeployment -> ApiResult unit * C.
(** [time.strftime("%Y-%m-%dT%H:%M:%S")] at the time of the call. *)
Variable now : string.

(** [DeploymentTools.restart(deployment_name, namespace)] (lines 79-109),
    with the requests sent and the cluster as state. *)
Definition restart (deployment_name namespace : string) (s : list RCall * C)
  : string * (list RCall * C) :=
  let handle (e : ApiException) (s' : list RCall * C) :=
    if (api_status e =? 404)%Z
    then ("Deployment '" ++ deployment_name ++ "' not found in namespace '" ++ namespace ++ "'", s')
    else ("Error restarting deployment: " ++ api_reason e ++ " - " ++ api_body e, s') in
  let s1 := ((fst s ++ [RRead deployment_name namespace])%list, snd s) in
  match read_api (snd s) deployment_name namespace with
  | ApiError e => handle e s1
  | OtherError e => ("Unexpected error: " ++ exc_str e, s1)
  | Returned d =>
      let body := set_restarted_at d now in
      let '(r, c2) := patch_api (snd s1) deployment_name namespace body in
      let s2 := ((fst s1 ++ [RPatch deployment_name namespace body])%list, c2) in
      match r with
      | ApiError e => handle e s2
      | OtherError e => ("Unexpected error: " ++ exc_str e, s2)
      | Returned _ =>
          ("Successfully triggered rolling restart for deployment '" ++ deployment_name
           ++ "' in namespace '" ++ namespace ++ "'", s2)
      end
  end.

End Restart.

(** Example: deployment [web] with one annotation, and an API that
    accepts patches. *)
Definition web_r : RDeployment :=
  mkRDeployment "web" "default"
    (mkRSpec (Some 3%Z) (mkTemplateMetadata (Some [("team", "a")]) []) []) [].

Definition read_web_r (_ : unit) (_ _ : string) : ApiResult RDeployment := Returned web_r.

Definition patch_ok_r (c : unit) (_ _ : string) (_ : RDeployment) : ApiResult unit * unit :=
  (Returned tt, c).

(** Example: an API on which every deployment read answers 404. *)
Definition not_found_exc : ApiException := mkApiExc 404 "Not Found" "deployments.apps not found".

Definition read_missing (_ : unit) (_ _ : string) : ApiResult Deployments.Deployment :=
  ApiError not_found_exc.

Definition read_missing_r (_ : unit) (_ _ : string) : ApiResult RDeployment :=
  ApiError not_found_exc.

End DeploymentRestart.

(** ** Proofs *)

Lemma string_app_assoc (a b c : string) : (a ++ b) ++ c = a ++ (b ++ c).
Proof. induction a as [|x a IH]; simpl; [reflexivity|now rewrite IH]. Qed.

(** ** Proofs: src/server.py *)
Module DispatchProofs.
Import Dispatch.

Section Props.
Variable W : Type.
Variable ops : string -> list PyVal -> W -> Exc string * W.

(** Every normal return of the [try] body is one text block. *)
Lemma call_tool_body_single name arguments f r f' :
  call_tool_body W ops name arguments f = (Ok r, f') -> exists t, r = [text t].
Proof.
  unfold call_tool_body.
  repeat match goal with
         | |- context [String.eqb name ?c] => destruct (String.eqb name c)
         end;
  unfold bind, getitem, set_name, invoke, reply, ret;
  repeat match goal with
         | |- context [dict_get ?k arguments] => destruct (dict_get k arguments)
         | |- context [ops ?o ?xs ?w] => destruct (ops o xs w) as [[?|?] ?]
         end;
  intro H; inversion H; eauto.
Qed.

Lemma call_tool_single name arguments w :
  exists t, fst (call_tool W ops name arguments w) = [text t].
Proof.
  unfold call_tool.
  destruct (call_tool_body W ops name arguments (mkFrame W w (PStr name))) as [[r|e] f] eqn:E.
  - destruct (call_tool_body_single _ _ _ _ _ E) as [t ->]. now exists t.
  - eexists. reflexivity.
Qed.

(** An unregistered name reaches the final [else] branch. *)
Lemma call_tool_unknown name arguments w :
  ~ In name (map tool_name list_tools) ->
  call_tool W ops name arguments w = ([text ("Unknown tool: " ++ name)], w).
Proof.
  intro Hn. unfold call_tool, call_tool_body.
  repeat match goal with
         | |- context [String.eqb name ?c] =>
             destruct (String.eqb_spec name c) as [->|_];
             [exfalso; apply Hn; simpl; tauto|]
         end.
  reflexivity.
Qed.

End Props.

(** C2: [call_tool] returns exactly one text block for every operation name
    and argument bag, whatever the tool methods do; an unregistered name
    gives "Unknown tool: <name>", which contains "Unknown"; and whenever the
    [try] body raises (a tool method raising, a missing key, ...), the block
    is the [except] clause's text, which starts with "Error". *)
Theorem call_tool_never_raises :
  forall (W : Type) (ops : string -> list PyVal -> W -> Exc string * W)
         (name : string) (arguments : Args) (w : W),
    (exists t, fst (call_tool W ops name arguments w) = [text t])
    /\ (~ In name (map tool_name list_tools) ->
        exists t, fst (call_tool W ops name arguments w) = [text t]
                  /\ t = "Unknown tool: " ++ name /\ contains "Unknown" t = true)
    /\ (forall e f, call_tool_body W ops name arguments (mkFrame W w (PStr name)) = (Raise e, f) ->
        exists t, fst (call_tool W ops name arguments w) = [text t]
                  /\ String.prefix "Error" t = true).
Proof.
  intros W ops name arguments w. split; [|split].
  - apply call_tool_single.
  - intro Hn. rewrite call_tool_unknown by exact Hn.
    eexists; split; [reflexivity|split; [reflexivity|]].
    reflexivity.
  - intros e f E. unfold call_tool. rewrite E.
    eexists; split; reflexivity.
Qed.

Lemma call_tool_never_raises_witness :
  ~ In "frobnicate" (map tool_name list_tools)
  /\ exists t, fst (call_tool unit raising_ops "frobnicate" [] tt) = [text t]
               /\ t = "Unknown tool: " ++ "frobnicate" /\ contains "Unknown" t = true.
Proof.
  assert (H : ~ In "frobnicate" (map tool_name list_tools)) by (simpl; intuition discriminate).
  split; [exact H|].
  exact (proj1 (proj2 (call_tool_never_raises unit raising_ops "frobnicate" [] tt)) H).
Defined.

(** C3: for a registered operation whose required argument [k] is missing,
    [call_tool] returns, for every behaviour of the tool methods, the
    [KeyError] text naming a missing required key, and leaves the world as it
    was: no tool method is entered. *)
Theorem missing_required_argument :
  forall (W : Type) (ops : string -> list PyVal -> W -> Exc string * W)
         (t : Tool) (k : string) (args : Args) (w : W),
    In t list_tools -> In k (tool_required t) -> dict_get k args = None ->
    exists k', In k' (tool_required t) /\ dict_get k' args = None
      /\ call_tool W ops (tool_name t) args w
         = ([text ("Error executing tool " ++ tool_name t ++ ": '" ++ k' ++ "'")], w).
Proof.
  intros W ops t k args w Ht Hk Hget.
  simpl in Ht.
  repeat (destruct Ht as [<-|Ht]; [simpl in Hk; intuition; subst|]); try contradiction;
  unfold call_tool, call_tool_body; simpl;
  unfold bind, getitem, set_name, invoke, reply, ret;
  try (rewrite Hget; refine (ex_intro _ _ (conj _ (conj Hget eq_refl))); simpl; tauto).
  (* the two-key schemas: the first key is read first *)
  all: match goal with
       | |- context [dict_get ?k0 ?a] =>
           destruct (dict_get k0 a) eqn:E0;
           [rewrite Hget; refine (ex_intro _ _ (conj _ (conj Hget eq_refl))); simpl; tauto
           |refine (ex_intro _ _ (conj _ (conj E0 eq_refl))); simpl; tauto]
       end.
Qed.

Lemma missing_required_argument_witness :
  let t := mkTool "get_pod_logs"
             [("pod_name", "string"); ("namespace", "string"); ("tail", "integer")] ["pod_name"] in
  In t list_tools /\ In "pod_name" (tool_required t)
  /\ dict_get "pod_name" [("namespace", PStr "default")] = None
  /\ exists k', In k' (tool_required t) /\ dict_get k' [("namespace", PStr "default")] = None
      /\ call_tool unit raising_ops (tool_name t) [("namespace", PStr "default")] tt
         = ([text ("Error executing tool " ++ tool_name t ++ ": '" ++ k' ++ "'")], tt).
Proof.
  intro t.
  assert (Ht : In t list_tools) by (simpl; repeat (first [left; reflexivity | right])).
  assert (Hk : In "pod_name" (tool_required t)) by (simpl; left; reflexivity).
  assert (Hg : dict_get "pod_name" [("namespace", PStr "default")] = None) by reflexivity.
  split; [exact Ht|split; [exact Hk|split; [exact Hg|]]].
  exact (missing_required_argument unit raising_ops t "pod_name" _ tt Ht Hk Hg).
Defined.

End DispatchProofs.

(** ** Proofs: src/tools/events.py *)
Module EventsProofs.
Import Events.

Lemma insert_desc_perm x l : Permutation (insert_desc x l) (x :: l).
Proof.
  induction l as [|y l IH]; simpl; [reflexivity|].
  destruct (eff_ts y <=? eff_ts x)%Z; [reflexivity|].
  rewrite IH. apply perm_swap.
Qed.

Lemma sort_desc_perm l : Permutation (sort_desc l) l.
Proof.
  induction l as [|x l IH]; simpl; [reflexivity|].
  rewrite insert_desc_perm. now constructor.
Qed.

Lemma insert_desc_hd x y l :
  ts_ge y x -> HdRel ts_ge y l -> HdRel ts_ge y (insert_desc x l).
Proof.
  intros Hyx Hl. destruct l as [|z l]; simpl; [now constructor|].
  destruct (eff_ts z <=? eff_ts x)%Z; constructor; [exact Hyx|].
  now inversion Hl.
Qed.

Lemma insert_desc_sorted x l : Sorted ts_ge l -> Sorted ts_ge (insert_desc x l).
Proof.
  induction 1 as [|y l Hs IH Hhd]; simpl; [now repeat constructor|].
  destruct (eff_ts y <=? eff_ts x)%Z eqn:E.
  - constructor; [now constructor|]. constructor. unfold ts_ge. lia.
  - constructor; [exact IH|]. apply insert_desc_hd; [unfold ts_ge; lia|exact Hhd].
Qed.

Lemma sort_desc_sorted l : Sorted ts_ge (sort_desc l).
Proof.
  induction l; simpl; [constructor|]. now apply insert_desc_sorted.
Qed.

(** Elements skipped by [insert_desc] have a strictly greater key, so the
    subsequence of any one key sees [x] first. *)
Lemma insert_desc_filter x l t :
  filter (with_ts t) (insert_desc x l) = filter (with_ts t) (x :: l).
Proof.
  induction l as [|y l IH]; simpl; [reflexivity|].
  destruct (eff_ts y <=? eff_ts x)%Z eqn:E; [reflexivity|].
  simpl. rewrite IH. simpl. unfold with_ts.
  destruct (eff_ts x =? t)%Z eqn:Ex, (eff_ts y =? t)%Z eqn:Ey; try reflexivity.
  apply Z.eqb_eq in Ex; apply Z.eqb_eq in Ey. lia.
Qed.

Lemma sort_desc_stable l t :
  filter (with_ts t) (sort_desc l) = filter (with_ts t) l.
Proof.
  induction l as [|x l IH]; simpl; [reflexivity|].
  rewrite insert_desc_filter. simpl. now rewrite IH.
Qed.

(** C1: when the list call returns a non-empty [items], the
    output is the header (which reports the number fetched) followed by the
    blocks of [sorted_events[:limit]] under Python's slice rule: the first
    [limit] events of [sort_desc items] for [limit >= 0], and all but the
    [|limit|] last (oldest) ones for a negative [limit]. [sort_desc items]
    is ordered by effective timestamp, most recent first, is a permutation
    of [items], and keeps events of equal timestamp in API order. The
    dispatch passes [limit = 50] when the argument bag has no "limit". *)
Theorem list_events_sorted_py_slice :
  (forall (v1 : CoreV1Api) (namespace : option string) (limit : Z) (items : list Event),
    (if truthy_opt namespace
     then list_namespaced_event v1 (str_opt namespace) limit
     else list_event_for_all_namespaces v1 limit) = Returned items ->
    items <> [] ->
    exists scope shown,
      list_events v1 namespace limit
        = "Recent events in " ++ scope ++ " (showing " ++ str_nat (List.length items) ++ "):"
          ++ nl ++ nl ++ String.concat "" (map render_event shown)
      /\ shown = firstn (if (0 <=? limit)%Z then Z.to_nat limit
                         else List.length items - Z.to_nat (- limit)) (sort_desc items)
      /\ Sorted ts_ge (sort_desc items)
      /\ Permutation (sort_desc items) items
      /\ (forall t, filter (with_ts t) (sort_desc items) = filter (with_ts t) items))
  /\ (forall (W : Type) (ops : string -> list Dispatch.PyVal -> W -> Exc string * W)
             (args : Dispatch.Args) (w : W),
        Dispatch.dict_get "limit" args = None ->
        Dispatch.call_tool W ops "list_events" args w
        = let '(r, w') := ops "event_tools.list_events"
                            [Dispatch.get args "namespace" Dispatch.PNone; Dispatch.PInt 50] w in
          match r with
          | Ok t => ([Dispatch.text t], w')
          | Raise e => ([Dispatch.text ("Error executing tool list_events: " ++ exc_str e)], w')
          end).
Proof.
  split.
  - intros v1 namespace limit items Hresp Hne.
    assert (Hlen : List.length (sort_desc items) = List.length items)
      by apply Permutation_length, sort_desc_perm.
    assert (Htake : py_take limit (sort_desc items)
                    = firstn (if (0 <=? limit)%Z then Z.to_nat limit
                              else List.length items - Z.to_nat (- limit)) (sort_desc items))
      by (unfold py_take; rewrite Hlen; destruct (0 <=? limit)%Z; reflexivity).
    pose (body := fun scope : string =>
      ("Recent events in " ++ scope ++ " (showing " ++ str_nat (List.length (sort_desc items))
       ++ "):" ++ nl ++ nl) ++ String.concat "" (map render_event (py_take limit (sort_desc items)))).
    assert (Hout : exists scope, list_events v1 namespace limit = body scope).
    { unfold list_events.
      destruct (truthy_opt namespace); rewrite Hresp;
        (destruct items as [|i items]; [contradiction|]); eexists; reflexivity. }
    destruct Hout as [scope Hout].
    eexists scope, _.
    split; [|split; [reflexivity|split; [apply sort_desc_sorted
                     |split; [apply sort_desc_perm|apply sort_desc_stable]]]].
    rewrite Hout. unfold body. rewrite Hlen, Htake, !string_app_assoc. reflexivity.
  - intros W ops args w Hl.
    unfold Dispatch.call_tool, Dispatch.call_tool_body; simpl.
    unfold Dispatch.bind, Dispatch.invoke, Dispatch.reply, Dispatch.ret.
    unfold Dispatch.get at 2. rewrite Hl.
    cbn [Dispatch.world Dispatch.name_var].
    destruct (ops _ _ w) as [[t|e] w']; reflexivity.
Qed.

(** Witness for C1 at the spec's example: [limit = 2] shows T2 then T3, and
    [limit = -1] shows the same two (all but the oldest, T1). *)
Lemma list_events_sorted_py_slice_witness :
  firstn 2 (sort_desc [T1; T2; T3]) = [T2; T3]
  /\ (exists scope shown,
      list_events v1_example None 2%Z
        = "Recent events in " ++ scope ++ " (showing " ++ str_nat 3 ++ "):"
          ++ nl ++ nl ++ String.concat "" (map render_event shown)
      /\ shown = firstn (if (0 <=? 2)%Z then Z.to_nat 2 else 3 - Z.to_nat (- 2)) (sort_desc [T1; T2; T3])
      /\ Sorted ts_ge (sort_desc [T1; T2; T3])
      /\ Permutation (sort_desc [T1; T2; T3]) [T1; T2; T3]
      /\ (forall t, filter (with_ts t) (sort_desc [T1; T2; T3]) = filter (with_ts t) [T1; T2; T3]))
  /\ (exists scope shown,
      list_events v1_example None (-1)%Z
        = "Recent events in " ++ scope ++ " (showing " ++ str_nat 3 ++ "):"
          ++ nl ++ nl ++ String.concat "" (map render_event shown)
      /\ shown = firstn (if (0 <=? -1)%Z then Z.to_nat (-1) else 3 - Z.to_nat (- -1))
                        (sort_desc [T1; T2; T3])
      /\ Sorted ts_ge (sort_desc [T1; T2; T3])
      /\ Permutation (sort_desc [T1; T2; T3]) [T1; T2; T3]
      /\ (forall t, filter (with_ts t) (sort_desc [T1; T2; T3]) = filter (with_ts t) [T1; T2; T3])).
Proof.
  split; [reflexivity|split].
  - apply (proj1 list_events_sorted_py_slice v1_example None 2%Z [T1; T2; T3]);
      [reflexivity|discriminate].
  - apply (proj1 list_events_sorted_py_slice v1_example None (-1)%Z [T1; T2; T3]);
      [reflexivity|discriminate].
Defined.

(** C1 counterexample: with [limit = -1] on the spec's three events the
    output is not the first [limit] events (none, read as a count): it
    renders the two events T2 and T3. *)
Lemma list_events_negative_limit_counterexample :
  firstn (Z.to_nat (-1)) (sort_desc [T1; T2; T3]) = []
  /\ list_events v1_example None (-1)%Z
     = "Recent events in all namespaces (showing 3):" ++ nl ++ nl
       ++ String.concat "" (map render_event [T2; T3])
  /\ list_events v1_example None (-1)%Z
     <> "Recent events in all namespaces (showing 3):" ++ nl ++ nl
        ++ String.concat "" (map render_event (firstn (Z.to_nat (-1)) (sort_desc [T1; T2; T3]))).
Proof.
  split; [reflexivity|split].
  - vm_compute. reflexivity.
  - vm_compute. discriminate.
Qed.

End EventsProofs.

(** ** Proofs: src/tools/yaml_ops.py *)
Module YamlOpsProofs.
Import Dispatch YamlOps.

Lemma pick_tmp_fresh used k fuel path :
  pick_tmp used k fuel = Some path ->
  existsb (fun f => String.eqb (fst f) path) used = false.
Proof.
  revert k. induction fuel as [|fuel IH]; simpl; intros k H; [discriminate|].
  destruct (existsb (fun f => String.eqb (fst f) (tmp_name k)) used) eqn:E.
  - exact (IH _ H).
  - now inversion H; subst.
Qed.

Lemma unlink_fresh (fs : list (string * string)) path :
  existsb (fun f => String.eqb (fst f) path) fs = false ->
  filter (fun f => negb (String.eqb (fst f) path)) fs = fs.
Proof.
  induction fs as [|f fs IH]; simpl; [reflexivity|].
  intro H. apply orb_false_iff in H as [H1 H2].
  rewrite H1. simpl. now rewrite IH.
Qed.

Lemma existsb_fst_notin (fs : list (string * string)) path :
  existsb (fun f => String.eqb (fst f) path) fs = false -> ~ In path (map fst fs).
Proof.
  induction fs as [|f fs IH]; simpl; [tauto|].
  intros H [E|Hin]; apply orb_false_iff in H as [H1 H2].
  - subst. rewrite String.eqb_refl in H1. discriminate.
  - exact (IH H2 Hin).
Qed.

(** C4: content that loads to no document or only null documents yields the
    "No valid resources" error and leaves the state as it was: no temporary
    file, no kubectl process, no API call. In particular for [""], on which
    PyYAML's [safe_load_all] yields no document. Conversely, whenever a
    process is run the content has loaded to a non-null document (the local
    validation comes first). *)
Theorem apply_rejects_empty_yaml :
  forall (safe_load_all : string -> Exc (list PyVal)) (tmp_write : string -> option PyExc)
         (kubectl_run : list (string * string) -> list string -> Z -> RunOutcome),
    (forall content docs s,
        safe_load_all content = Ok docs -> forallb is_none docs = true ->
        apply safe_load_all tmp_write kubectl_run content s = (no_resources_msg, s))
    /\ (forall s, safe_load_all "" = Ok [] ->
        apply safe_load_all tmp_write kubectl_run "" s = (no_resources_msg, s))
    /\ (forall content s,
        runs (snd (apply safe_load_all tmp_write kubectl_run content s)) <> runs s ->
        exists docs, safe_load_all content = Ok docs
                     /\ existsb (fun d => negb (is_none d)) docs = true).
Proof.
  intros slA tw kr.
  assert (Hnull : forall content docs s,
            slA content = Ok docs -> forallb is_none docs = true ->
            apply slA tw kr content s = (no_resources_msg, s)).
  { intros content docs s Hl Hn. unfold apply, apply_body. rewrite Hl, Hn.
    now rewrite orb_true_r. }
  split; [exact Hnull|split].
  - intros s H. now apply (Hnull "" []).
  - intros content s Hr. unfold apply, apply_body in Hr.
    destruct (slA content) as [docs|e] eqn:Hl.
    + exists docs. split; [reflexivity|].
      destruct (existsb (fun d => negb (is_none d)) docs) eqn:Ex; [reflexivity|].
      exfalso. apply Hr.
      assert (Hn : forallb is_none docs = true).
      { apply forallb_forall. intros d Hd.
        destruct (is_none d) eqn:Ed; [reflexivity|].
        assert (existsb (fun d => negb (is_none d)) docs = true)
          by (apply existsb_exists; exists d; now rewrite Ed).
        congruence. }
      rewrite Hn, orb_true_r. reflexivity.
    + exfalso. apply Hr. destruct (is_yaml_error (exc_class e)); [reflexivity|].
      simpl. destruct (String.eqb (exc_class e) "TimeoutExpired"); [reflexivity|].
      destruct (String.eqb (exc_class e) "FileNotFoundError"); reflexivity.
Qed.

Lemma apply_rejects_empty_yaml_witness :
  toy_load "" = Ok []
  /\ apply toy_load write_ok kubectl_timeout "" sys0 = (no_resources_msg, sys0).
Proof.
  assert (H : toy_load "" = Ok []) by reflexivity.
  split; [exact H|].
  exact (proj1 (proj2 (apply_rejects_empty_yaml toy_load write_ok kubectl_timeout)) sys0 H).
Defined.

Lemma some_doc_guard (docs : list PyVal) :
  existsb (fun d => negb (is_none d)) docs = true ->
  (match docs with [] => true | _ => false end || forallb is_none docs) = false.
Proof.
  intro H. destruct docs as [|d docs]; [discriminate|]. simpl.
  simpl in H. destruct (is_none d); simpl in *; [|reflexivity].
  induction docs as [|d' docs IH]; simpl in *; [discriminate|].
  destruct (is_none d'); simpl in *; [now apply IH|reflexivity].
Qed.


(** C5, the paths after the write: once the content has loaded to a
    non-null document and the temporary file [path] has been created and
    written, [apply] runs
    [kubectl apply -f path] once with timeout 60 and, on every outcome of that
    process (exit code 0, non-zero exit code, [TimeoutExpired], or any other
    exception), ends with the file removed and every other file untouched.
    A timeout yields [timeout_msg], which differs from every
    "Error applying YAML" text of the non-zero exit path. *)
Theorem apply_removes_tmp_file :
  forall (safe_load_all : string -> Exc (list PyVal)) (tmp_write : string -> option PyExc)
         (kubectl_run : list (string * string) -> list string -> Z -> RunOutcome)
         (content : string) (docs : list PyVal) (s : Sys) (path : string),
    safe_load_all content = Ok docs ->
    existsb (fun d => negb (is_none d)) docs = true ->
    pick_tmp (files s) 0 TMP_MAX = Some path ->
    tmp_write content = None ->
    let '(r, s') := apply safe_load_all tmp_write kubectl_run content s in
    ~ In path (map fst (files s))
    /\ files s' = files s
    /\ runs s' = (runs s ++ [(kubectl_argv path, 60%Z)])%list
    /\ match kubectl_run ((path, content) :: files s) (kubectl_argv path) 60%Z with
       | Completed rc out err =>
           r = (if (rc =? 0)%Z then "✓ Successfully applied YAML:" ++ lf ++ lf ++ out
                else "✗ Error applying YAML:" ++ lf ++ lf ++ err)
       | RunRaised e => String.eqb (exc_class e) "TimeoutExpired" = true -> r = timeout_msg
       end
    /\ (forall err, timeout_msg <> "✗ Error applying YAML:" ++ lf ++ lf ++ err).
Proof.
  intros slA tw kr content docs s path Hl Hd Hp Hw.
  pose proof (pick_tmp_fresh _ _ _ _ Hp) as Hfresh.
  unfold apply, apply_body. rewrite Hl, (some_doc_guard _ Hd).
  unfold st_bind, named_temporary_file. rewrite Hp, Hw.
  unfold st_finally, st_bind, subprocess_run. simpl.
  assert (Hfiles : filter (fun f => negb (String.eqb (fst f) path))
                          ((path, content) :: files s) = files s).
  { simpl. rewrite String.eqb_refl. simpl. now apply unlink_fresh. }
  assert (Hdiff : forall err, timeout_msg <> "✗ Error applying YAML:" ++ lf ++ lf ++ err)
    by (intros err H; discriminate H).
  destruct (kr ((path, content) :: files s) ["kubectl"; "apply"; "-f"; path] 60%Z)
    as [rc out err|e] eqn:Hk; simpl.
  - destruct (rc =? 0)%Z eqn:Erc; simpl; unfold unlink_quiet; simpl;
      rewrite String.eqb_refl; simpl; rewrite (unlink_fresh _ _ Hfresh);
      (split; [now apply existsb_fst_notin|]);
      (split; [reflexivity|]);
      (split; [reflexivity|]); unfold kubectl_argv; rewrite Hk, Erc;
      (split; [reflexivity|exact Hdiff]).
  - unfold kubectl_argv; rewrite Hk.
    destruct (String.eqb (exc_class e) "TimeoutExpired") eqn:Ht;
      [|destruct (String.eqb (exc_class e) "FileNotFoundError")]; simpl;
      rewrite String.eqb_refl; simpl; rewrite (unlink_fresh _ _ Hfresh);
      (split; [now apply existsb_fst_notin|]);
      (split; [reflexivity|]);
      (split; [reflexivity|]); split; auto; discriminate.
Qed.

Lemma apply_removes_tmp_file_witness :
  toy_load "kind: Pod" = Ok [PStr "kind: Pod"]
  /\ pick_tmp (files sys0) 0 TMP_MAX = Some "/tmp/tmp0.yaml"
  /\ let '(r, s') := apply toy_load write_ok kubectl_timeout "kind: Pod" sys0 in
     ~ In "/tmp/tmp0.yaml" (map fst (files sys0))
     /\ files s' = files sys0
     /\ runs s' = (runs sys0 ++ [(kubectl_argv "/tmp/tmp0.yaml", 60%Z)])%list
     /\ match kubectl_timeout (("/tmp/tmp0.yaml", "kind: Pod") :: files sys0)
                (kubectl_argv "/tmp/tmp0.yaml") 60%Z with
        | Completed rc out err =>
            r = (if (rc =? 0)%Z then "✓ Successfully applied YAML:" ++ lf ++ lf ++ out
                 else "✗ Error applying YAML:" ++ lf ++ lf ++ err)
        | RunRaised e => String.eqb (exc_class e) "TimeoutExpired" = true -> r = timeout_msg
        end
     /\ (forall err, timeout_msg <> "✗ Error applying YAML:" ++ lf ++ lf ++ err).
Proof.
  assert (H1 : toy_load "kind: Pod" = Ok [PStr "kind: Pod"]) by reflexivity.
  assert (H3 : pick_tmp (files sys0) 0 TMP_MAX = Some "/tmp/tmp0.yaml") by (vm_compute; reflexivity).
  split; [exact H1|split; [exact H3|]].
  exact (apply_removes_tmp_file toy_load write_ok kubectl_timeout "kind: Pod" _ sys0
           "/tmp/tmp0.yaml" H1 eq_refl H3 eq_refl).
Defined.

(** C6: for each supported kind (Pod, Deployment, Service, ConfigMap,
    Secret) and no namespace ([None], or the falsy [""]), [get] answers
    "Namespace required for <kind> resources" and sends no request: the state,
    and with it the log of API calls, is unchanged. *)
Theorem get_yaml_requires_namespace :
  forall (read_resource : string -> string -> string -> ApiResult PyVal)
         (dump : PyVal -> Exc string) (kind name : string) (namespace : option string) (s : Sys),
    In kind ["Pod"; "Deployment"; "Service"; "ConfigMap"; "Secret"] ->
    truthy_opt namespace = false ->
    get read_resource dump kind name namespace s
    = ("Namespace required for " ++ kind ++ " resources", s)
    /\ contains "Namespace required" (fst (get read_resource dump kind name namespace s)) = true.
Proof.
  intros rd dp kind name namespace s Hk Hns.
  assert (H : get rd dp kind name namespace s = ("Namespace required for " ++ kind ++ " resources", s)).
  { simpl in Hk.
    repeat (destruct Hk as [<-|Hk]; [unfold get; simpl; rewrite Hns; reflexivity|]).
    contradiction. }
  split; [exact H|]. rewrite H. reflexivity.
Qed.

Lemma get_yaml_requires_namespace_witness :
  In "Pod" ["Pod"; "Deployment"; "Service"; "ConfigMap"; "Secret"]
  /\ truthy_opt None = false
  /\ get read_none dump_ok "Pod" "p1" None sys0 = ("Namespace required for " ++ "Pod" ++ " resources", sys0)
  /\ contains "Namespace required" (fst (get read_none dump_ok "Pod" "p1" None sys0)) = true.
Proof.
  assert (H1 : In "Pod" ["Pod"; "Deployment"; "Service"; "ConfigMap"; "Secret"]) by (left; reflexivity).
  assert (H2 : truthy_opt None = false) by reflexivity.
  split; [exact H1|split; [exact H2|]].
  exact (get_yaml_requires_namespace read_none dump_ok "Pod" "p1" None sys0 H1 H2).
Defined.

End YamlOpsProofs.

(** ** Proofs: src/tools/deployments.py *)
Module DeploymentsProofs.
Import Deployments.

(** C7: [scale] returns the success text exactly when the read and the patch
    both succeed; it then has sent the read of the deployment followed by one
    patch whose body is the object read with [spec.replicas] overwritten by
    the requested count (whatever the count was before), and the text names
    the deployment, the count and the namespace verbatim. *)
Theorem scale_read_then_patch :
  forall (C : Type) (read_api : C -> string -> string -> ApiResult Deployment)
         (patch_api : C -> string -> string -> Deployment -> ApiResult unit * C)
         (calls : list AppsCall) (c : C) (deployment_name : string) (n : Z) (namespace : string),
    let '(r, (calls', c')) := scale C read_api patch_api deployment_name n namespace (calls, c) in
    r = scaled_msg deployment_name n namespace ->
    exists d, read_api c deployment_name namespace = Returned d
      /\ fst (patch_api c deployment_name namespace (set_replicas d n)) = Returned tt
      /\ calls' = (calls ++ [ReadNamespacedDeployment deployment_name namespace;
                             PatchNamespacedDeployment deployment_name namespace (set_replicas d n)])%list
      /\ replicas (dep_spec (set_replicas d n)) = Some n
      /\ spec_rest (dep_spec (set_replicas d n)) = spec_rest (dep_spec d)
      /\ dep_name (set_replicas d n) = dep_name d.
Proof.
  intros C rd pt calls c name n ns.
  unfold scale, read_namespaced_deployment, patch_namespaced_deployment; simpl.
  destruct (rd c name ns) as [d|e|e] eqn:Hr.
  - simpl. destruct (pt c name ns (set_replicas d n)) as [[[]|e|e] c'] eqn:Hp.
    + intros _. exists d. rewrite Hp. simpl. rewrite <- app_assoc. auto 7.
    + destruct (api_status e =? 404)%Z; intro H; discriminate H.
    + intro H; discriminate H.
  - destruct (api_status e =? 404)%Z; intro H; discriminate H.
  - intro H; discriminate H.
Qed.

Lemma scale_read_then_patch_witness :
  fst (scale unit read_web patch_ok "web" 5 "default" ([], tt)) = scaled_msg "web" 5 "default"
  /\ let '(r, (calls', c')) := scale unit read_web patch_ok "web" 5 "default" ([], tt) in
     r = scaled_msg "web" 5 "default" ->
     exists d, read_web tt "web" "default" = Returned d
       /\ fst (patch_ok tt "web" "default" (set_replicas d 5)) = Returned tt
       /\ calls' = ([] ++ [ReadNamespacedDeployment "web" "default";
                           PatchNamespacedDeployment "web" "default" (set_replicas d 5)])%list
       /\ replicas (dep_spec (set_replicas d 5)) = Some 5%Z
       /\ spec_rest (dep_spec (set_replicas d 5)) = spec_rest (dep_spec d)
       /\ dep_name (set_replicas d 5) = dep_name d.
Proof.
  split; [reflexivity|].
  exact (scale_read_then_patch unit read_web patch_ok [] tt "web" 5 "default").
Defined.

End DeploymentsProofs.

(** ** Proofs: src/tools/namespaces.py *)
Module NamespacesProofs.
Import Dispatch Namespaces.

(** C8: a 409 from the API yields "Namespace '<name>' already exists", which
    differs from the generic "Error creating namespace: ..." and
    "Unexpected error: ..." texts; against the API server, creating a fresh,
    valid name twice yields the success text and then that text. *)
Theorem create_namespace_conflict :
  (forall (C : Type) (create_api : C -> V1Namespace -> ApiResult unit * C)
          (c c' : C) (name : string) (labels : PyVal) (e : ApiException),
      create_api c (mkV1Namespace name (if py_truthy labels then labels else PDict []))
        = (ApiError e, c') ->
      api_status e = 409%Z ->
      create_namespace C create_api name labels c = (already_exists_msg name, c'))
  /\ (forall name reason body msg,
      already_exists_msg name <> "Error creating namespace: " ++ reason ++ " - " ++ body
      /\ already_exists_msg name <> "Unexpected error: " ++ msg)
  /\ (forall (cl : Cluster) (name : string),
      dns1123_label name = true ->
      existsb (fun n => String.eqb (ns_name n) name) (stored cl) = false ->
      let '(r1, cl1) := create_namespace Cluster apiserver_create name PNone cl in
      let '(r2, _) := create_namespace Cluster apiserver_create name PNone cl1 in
      r1 = "Successfully created namespace '" ++ name ++ "'" /\ r2 = already_exists_msg name).
Proof.
  split; [|split].
  - intros C api c c' name labels e Ha Hs.
    unfold create_namespace. rewrite Ha, Hs. reflexivity.
  - intros name reason body msg. split; intro H; discriminate H.
  - intros cl name Hv Hfresh.
    unfold create_namespace, apiserver_create. simpl.
    rewrite Hv, Hfresh. simpl.
    rewrite String.eqb_refl. simpl. split; reflexivity.
Qed.

Lemma create_namespace_conflict_witness :
  dns1123_label "team-a" = true
  /\ existsb (fun n => String.eqb (ns_name n) "team-a") (stored empty_cluster) = false
  /\ let '(r1, cl1) := create_namespace Cluster apiserver_create "team-a" PNone empty_cluster in
     let '(r2, _) := create_namespace Cluster apiserver_create "team-a" PNone cl1 in
     r1 = "Successfully created namespace '" ++ "team-a" ++ "'" /\ r2 = already_exists_msg "team-a".
Proof.
  assert (H1 : dns1123_label "team-a" = true) by reflexivity.
  assert (H2 : existsb (fun n => String.eqb (ns_name n) "team-a") (stored empty_cluster) = false)
    by reflexivity.
  split; [exact H1|split; [exact H2|]].
  exact (proj2 (proj2 create_namespace_conflict) empty_cluster "team-a" H1 H2).
Defined.

End NamespacesProofs.

(** ** Proofs: src/tools/nodes.py *)
Module NodesProofs.
Import Nodes.






Lemma insert_key_perm k l : Permutation (insert_key k l) (k :: l).
Proof.
  induction l as [|h l IH]; simpl; [reflexivity|].
  destruct (str_lt k h); [reflexivity|]. rewrite IH. apply perm_swap.
Qed.

Lemma sort_keys_perm l : Permutation (sort_keys l) l.
Proof.
  induction l as [|k l IH]; simpl; [reflexivity|].
  rewrite insert_key_perm. now constructor.
Qed.





Lemma opt_app_assoc o l1 l2 : opt_app (opt_app o l1) l2 = opt_app o (l1 ++ l2).
Proof.
  destruct o as [v|], l1 as [|a l1], l2 as [|b l2]; simpl;
    rewrite ?app_nil_r; try reflexivity; now rewrite <- app_assoc.
Qed.

Lemma in_keys_lookup x (d : Dict) : In x (map fst d) <-> dict_lookup x d <> None.
Proof.
  induction d as [|[k v] d IH]; simpl; [tauto|].
  destruct (String.eqb_spec x k) as [->|Hne]; split; intro H; try discriminate; auto.
  - destruct H as [E|H]; [congruence|]. now apply IH.
  - right. now apply IH.
Qed.

Lemma lookup_append x k p d :
  dict_lookup x (dict_append k p d)
  = if String.eqb x k then opt_app (dict_lookup x d) [p] else dict_lookup x d.
Proof.
  induction d as [|[k' v] d IH]; simpl.
  - destruct (String.eqb x k); reflexivity.
  - destruct (String.eqb_spec k k') as [->|Hne]; simpl.
    + destruct (String.eqb x k'); reflexivity.
    + rewrite IH. destruct (String.eqb_spec x k') as [->|Hx]; [|reflexivity].
      destruct (String.eqb_spec k' k); [congruence|reflexivity].
Qed.

Lemma keys_append k p d :
  forall x, In x (map fst (dict_append k p d)) <-> x = k \/ In x (map fst d).
Proof.
  intro x. rewrite !in_keys_lookup, lookup_append.
  destruct (String.eqb_spec x k) as [->|Hne].
  - destruct (dict_lookup k d); simpl; split; try discriminate; auto.
  - split; [tauto|]. intros [E|H]; [contradiction|exact H].
Qed.

Lemma nodup_append k p d : NoDup (map fst d) -> NoDup (map fst (dict_append k p d)).
Proof.
  induction d as [|[k' v] d IH]; simpl; intro Hnd.
  - repeat constructor. simpl; tauto.
  - inversion Hnd as [|? ? Hk' Hnd']; subst.
    destruct (String.eqb_spec k k') as [->|Hne]; simpl; constructor; auto.
    rewrite keys_append. intros [E|H]; [congruence|contradiction].
Qed.

Lemma lookup_group_step x d pod :
  dict_lookup x (group_step d pod)
  = opt_app (dict_lookup x d) (if scheduled_on x pod then [pod] else []).
Proof.
  unfold group_step, scheduled_on.
  destruct (spec_node_name pod) as [n|]; simpl.
  - destruct (String.eqb n ""); simpl.
    + destruct (dict_lookup x d); simpl; rewrite ?app_nil_r; reflexivity.
    + rewrite lookup_append, String.eqb_sym.
      destruct (String.eqb n x); [reflexivity|].
      destruct (dict_lookup x d); simpl; rewrite ?app_nil_r; reflexivity.
  - destruct (dict_lookup x d); simpl; rewrite ?app_nil_r; reflexivity.
Qed.

Lemma lookup_group x pods acc :
  dict_lookup x (fold_left group_step pods acc)
  = opt_app (dict_lookup x acc) (filter (scheduled_on x) pods).
Proof.
  revert acc. induction pods as [|pod pods IH]; intro acc; simpl.
  - destruct (dict_lookup x acc); simpl; rewrite ?app_nil_r; reflexivity.
  - rewrite IH, lookup_group_step, opt_app_assoc.
    destruct (scheduled_on x pod); reflexivity.
Qed.

Lemma nodup_group pods acc :
  NoDup (map fst acc) -> NoDup (map fst (fold_left group_step pods acc)).
Proof.
  revert acc. induction pods as [|pod pods IH]; intros acc H; simpl; [exact H|].
  apply IH. unfold group_step.
  destruct (spec_node_name pod) as [n|]; [|exact H].
  destruct (String.eqb n ""); [exact H|]. now apply nodup_append.
Qed.

Lemma lookup_app_nil x d k :
  dict_lookup x (d ++ [(k, [])])%list
  = match dict_lookup x d with Some v => Some v | None => if String.eqb x k then Some [] else None end.
Proof.
  induction d as [|[k' v] d IH]; simpl; [reflexivity|].
  destruct (String.eqb x k'); [reflexivity|exact IH].
Qed.

Lemma lookup_node_step x d node :
  dict_lookup x (node_step d node)
  = match dict_lookup x d with
    | Some v => Some v
    | None => if String.eqb (node_name node) x then Some [] else None
    end.
Proof.
  unfold node_step, dict_mem.
  destruct (dict_lookup (node_name node) d) eqn:E.
  - destruct (dict_lookup x d) eqn:Ex; [reflexivity|].
    destruct (String.eqb_spec (node_name node) x) as [<-|]; [congruence|reflexivity].
  - rewrite lookup_app_nil, String.eqb_sym. reflexivity.
Qed.

Lemma lookup_nodes x nodes d :
  dict_lookup x (fold_left node_step nodes d)
  = match dict_lookup x d with
    | Some v => Some v
    | None => if existsb (fun n => String.eqb (node_name n) x) nodes then Some [] else None
    end.
Proof.
  revert d. induction nodes as [|node nodes IH]; intro d; simpl.
  - destruct (dict_lookup x d); reflexivity.
  - rewrite IH, lookup_node_step.
    destruct (dict_lookup x d); [reflexivity|].
    destruct (String.eqb (node_name node) x); reflexivity.
Qed.

Lemma nodup_nodes nodes d : NoDup (map fst d) -> NoDup (map fst (fold_left node_step nodes d)).
Proof.
  revert d. induction nodes as [|node nodes IH]; intros d H; simpl; [exact H|].
  apply IH. unfold node_step, dict_mem.
  destruct (dict_lookup (node_name node) d) eqn:E; [exact H|].
  rewrite map_app. simpl. apply NoDup_app; [exact H|repeat constructor; simpl; tauto|].
  intros y Hy [<-|[]]. apply in_keys_lookup in Hy. contradiction.
Qed.

(** The dict [pods_by_node]: one key per node and per node with a pod, the
    group of a key being the pods scheduled on it, in API order. *)
Lemma lookup_pods_by_node x nodes pods :
  dict_lookup x (pods_by_node nodes pods)
  = match filter (scheduled_on x) pods with
    | [] => if existsb (fun n => String.eqb (node_name n) x) nodes then Some [] else None
    | ps => Some ps
    end.
Proof.
  unfold pods_by_node. rewrite lookup_nodes, lookup_group. simpl.
  destruct (filter (scheduled_on x) pods); reflexivity.
Qed.

Lemma nodup_pods_by_node nodes pods : NoDup (map fst (pods_by_node nodes pods)).
Proof. apply nodup_nodes, nodup_group. constructor. Qed.

Lemma get_pods_by_node x nodes pods :
  In x (map fst (pods_by_node nodes pods)) ->
  dict_get x (pods_by_node nodes pods) = filter (scheduled_on x) pods.
Proof.
  intro H. apply in_keys_lookup in H. unfold dict_get.
  rewrite lookup_pods_by_node in *.
  destruct (filter (scheduled_on x) pods); [|reflexivity].
  destruct (existsb _ nodes); [reflexivity|congruence].
Qed.

Lemma keys_node_groups d : map fst (node_groups d) = sort_keys (map fst d).
Proof. unfold node_groups. rewrite map_map. apply map_id. Qed.




Lemma find_node_some k l n : find_node k l = Some n -> In n l /\ node_name n = k.
Proof.
  induction l as [|m l IH]; simpl; [discriminate|].
  destruct (String.eqb_spec (node_name m) k); intro H.
  - inversion H; subst. auto.
  - destruct (IH H). auto.
Qed.










Lemma string_app_empty_r (s : string) : s ++ "" = s.
Proof. induction s as [|c s IH]; simpl; [reflexivity|now rewrite IH]. Qed.

Lemma concat_empty_cons (b : string) (bs : list string) :
  String.concat "" (b :: bs) = b ++ String.concat "" bs.
Proof. destruct bs as [|b' bs]; simpl; [symmetry; apply string_app_empty_r|reflexivity]. Qed.

(** A rendering loop whose blocks all render gives their concatenation. *)
Lemma render_groups_ok nodes gs :
  (forall g, In g gs -> exists b, render_group nodes g = Ok b) ->
  exists bs, Forall2 (fun g b => render_group nodes g = Ok b) gs bs
             /\ render_groups nodes gs = Ok (String.concat "" bs).
Proof.
  induction gs as [|g gs IH]; intro H.
  - exists []. split; [constructor|reflexivity].
  - destruct (H g (or_introl eq_refl)) as [b Hb].
    destruct IH as [bs [Hf Hr]]; [intros g' Hg'; apply H; now right|].
    exists (b :: bs). split; [constructor; assumption|].
    rewrite concat_empty_cons. cbn [render_groups]. rewrite Hb, Hr. reflexivity.
Qed.



Lemma node_line_posted nodes k :
  (forall n, In n nodes -> conditions n <> None) ->
  exists mid, node_line nodes k = Ok ("Node: " ++ k ++ mid ++ nl).
Proof.
  intro Hp. unfold node_line.
  destruct (find_node k nodes) as [n|] eqn:E.
  - destruct (find_node_some _ _ _ E) as [Hn _]. unfold ready_status.
    destruct (conditions n) as [cs|] eqn:Ec; [|exfalso; exact (Hp n Hn Ec)].
    exists (" (Ready=" ++ fold_left (fun acc c => if String.eqb (fst c) "Ready" then snd c else acc) cs "Unknown" ++ ")").
    rewrite !string_app_assoc. reflexivity.
  - exists "". reflexivity.
Qed.





Lemma filter_comm {A} (f g : A -> bool) l : filter f (filter g l) = filter g (filter f l).
Proof.
  induction l as [|x l IH]; simpl; [reflexivity|].
  destruct (g x) eqn:Eg, (f x) eqn:Ef; simpl; rewrite ?Eg, ?Ef, IH; reflexivity.
Qed.

Lemma group_step_unscheduled d p : scheduled p = false -> group_step d p = d.
Proof.
  unfold scheduled, truthy_opt, group_step. destruct (spec_node_name p) as [n|]; [|reflexivity].
  destruct (String.eqb n ""); simpl; [reflexivity|discriminate].
Qed.

Lemma fold_group_scheduled l d :
  fold_left group_step (filter scheduled l) d = fold_left group_step l d.
Proof.
  revert d. induction l as [|p l IH]; intro d; simpl; [reflexivity|].
  destruct (scheduled p) eqn:E; simpl; [apply IH|].
  rewrite (group_step_unscheduled d p E). apply IH.
Qed.

Lemma pods_by_node_scheduled nodes namespace pods :
  pods_by_node nodes (pods_in namespace (filter scheduled pods))
  = pods_by_node nodes (pods_in namespace pods).
Proof.
  unfold pods_by_node. f_equal.
  assert (E : pods_in namespace (filter scheduled pods) = filter scheduled (pods_in namespace pods)).
  { unfold pods_in. destruct (truthy_opt namespace); [apply filter_comm|reflexivity]. }
  rewrite E. apply fold_group_scheduled.
Qed.

Lemma scheduled_on_scheduled k p : scheduled_on k p = true -> scheduled p = true.
Proof.
  unfold scheduled_on, scheduled, truthy_opt. destruct (spec_node_name p); [|discriminate].
  intro H. apply andb_true_iff in H. exact (proj1 H).
Qed.

(** C10: a pod with no assigned node name changes nothing in the text of
    [list_pods_by_node]: the listing of the pods is the listing of the pods
    with a node name only, and every pod of every node group has a node
    name. *)
Theorem list_pods_by_node_omits_unscheduled :
  forall (nodes_r : ApiResult (list Node)) (pods : list Pod) (namespace : option string),
    list_pods_by_node nodes_r (Returned pods) namespace
    = list_pods_by_node nodes_r (Returned (filter scheduled pods)) namespace
    /\ forall nodes k ps p,
         In (k, ps) (node_groups (pods_by_node nodes (pods_in namespace pods))) ->
         In p ps -> scheduled p = true.
Proof.
  intros nodes_r pods namespace. split.
  - destruct nodes_r as [nodes| |]; try reflexivity. unfold list_pods_by_node.
    rewrite pods_by_node_scheduled. reflexivity.
  - intros nodes k ps p H Hp. unfold node_groups in H.
    apply in_map_iff in H as [k' [E Hk']]. inversion E; subst k' ps.
    rewrite get_pods_by_node in Hp by exact (Permutation_in _ (sort_keys_perm _) Hk').
    apply filter_In in Hp. exact (scheduled_on_scheduled k p (proj2 Hp)).
Qed.

Lemma list_pods_by_node_omits_unscheduled_witness :
  list_pods_by_node (Returned ex_nodes) (Returned ex_pods) None
  = list_pods_by_node (Returned ex_nodes) (Returned [pod_a]) None
  /\ In ("n2", [pod_a]) (node_groups (pods_by_node ex_nodes (pods_in None ex_pods)))
  /\ In pod_a [pod_a]
  /\ scheduled pod_a = true.
Proof.
  destruct (list_pods_by_node_omits_unscheduled (Returned ex_nodes) ex_pods None) as [H1 H2].
  assert (Hg : In ("n2", [pod_a]) (node_groups (pods_by_node ex_nodes (pods_in None ex_pods))))
    by (vm_compute; right; left; reflexivity).
  split; [exact H1|split; [exact Hg|split; [left; reflexivity|]]].
  exact (H2 ex_nodes "n2" [pod_a] pod_a Hg (or_introl eq_refl)).
Defined.

End NodesProofs.

(** ** Proofs: src/tools/nodes.py, [list_nodes] and [cluster_info] *)
Module NodeListProofs.
Import NodeList.

Lemma prefix_app (a b : string) : String.prefix a (a ++ b) = true.
Proof.
  induction a as [|c a IH]; simpl; [destruct b; reflexivity|].
  destruct (Ascii.ascii_dec c c) as [_|n]; [exact IH|contradiction].
Qed.

Lemma count_roles_acc nodes cp wk :
  fold_left (fun acc n => let '(cp, wk) := acc in
                          if is_control_plane n then (S cp, wk) else (cp, S wk)) nodes (cp, wk)
  = (cp + List.length (filter is_control_plane nodes),
     wk + List.length (filter (fun n => negb (is_control_plane n)) nodes)).
Proof.
  revert cp wk. induction nodes as [|n nodes IH]; intros cp wk; simpl.
  - f_equal; lia.
  - destruct (is_control_plane n); simpl; rewrite IH; f_equal; lia.
Qed.

Lemma filter_length_split {A} (f : A -> bool) l :
  List.length (filter f l) + List.length (filter (fun x => negb (f x)) l) = List.length l.
Proof.
  induction l as [|x l IH]; simpl; [reflexivity|]. destruct (f x); simpl; lia.
Qed.

(** [cluster_info] reports the number of nodes, the number of nodes carrying
    a control-plane or master label key, and the number of the others, and
    the last two add up to the first. *)
Theorem cluster_info_counts :
  forall (NS : Type) (nodes : list KNode) (nss : list NS),
    let cp := List.length (filter is_control_plane nodes) in
    let wk := List.length (filter (fun n => negb (is_control_plane n)) nodes) in
    cp + wk = List.length nodes
    /\ String.prefix
         ("Cluster Information:" ++ nl ++ nl
          ++ "Total Nodes: " ++ str_nat (List.length nodes) ++ nl
          ++ "  Control Plane: " ++ str_nat cp ++ nl
          ++ "  Workers: " ++ str_nat wk ++ nl
          ++ "Total Namespaces: " ++ str_nat (List.length nss) ++ nl)
         (cluster_info (Returned nodes) (Returned nss)) = true.
Proof.
  intros NS nodes nss cp wk. split; [apply filter_length_split|].
  unfold cluster_info, count_roles. rewrite count_roles_acc. simpl plus.
  fold cp wk.
  rewrite <- !string_app_assoc. apply prefix_app.
Qed.

Lemma assoc_get_set_same k v d : assoc_get k (dict_set k v d) = Some v.
Proof.
  induction d as [|[k' v'] d IH]; simpl.
  - rewrite String.eqb_refl. reflexivity.
  - destruct (String.eqb_spec k k') as [->|Hne]; simpl.
    + rewrite String.eqb_refl. reflexivity.
    + destruct (String.eqb_spec k k'); [contradiction|exact IH].
Qed.

Lemma assoc_get_set_other k k2 v d : k <> k2 -> assoc_get k (dict_set k2 v d) = assoc_get k d.
Proof.
  intro Hne. induction d as [|[k' v'] d IH]; simpl.
  - destruct (String.eqb_spec k k2); [contradiction|reflexivity].
  - destruct (String.eqb_spec k2 k') as [->|_]; simpl.
    + destruct (String.eqb_spec k k'); [contradiction|reflexivity].
    + destruct (String.eqb k k'); [reflexivity|exact IH].
Qed.

Lemma ready_fold conds d acc :
  get_or "Ready" "Unknown" d = acc ->
  get_or "Ready" "Unknown"
    (fold_left (fun d c => if existsb (String.eqb (fst c)) watched_conditions
                           then dict_set (fst c) (snd c) d else d) conds d)
  = fold_left (fun acc c => if String.eqb (fst c) "Ready" then snd c else acc) conds acc.
Proof.
  revert d acc. induction conds as [|[t v] conds IH]; intros d acc H; simpl; [exact H|].
  apply IH. destruct (String.eqb_spec t "Ready") as [->|Hne].
  - simpl. unfold get_or. rewrite assoc_get_set_same. reflexivity.
  - match goal with |- context [if ?b then _ else _] => destruct b end; [|exact H].
    unfold get_or in *. rewrite assoc_get_set_other by congruence. exact H.
Qed.

Lemma render_node_raise n e : render_node n = Raise e -> e = Nodes.none_iter_error.
Proof. unfold render_node. destruct (kn_conditions n); intro H; inversion H; reflexivity. Qed.

Lemma render_nodes_raise items n :
  In n items -> render_node n = Raise Nodes.none_iter_error ->
  render_nodes items = Raise Nodes.none_iter_error.
Proof.
  induction items as [|n0 items IH]; simpl; [tauto|]. intros [<-|Hn] Hr.
  - now rewrite Hr.
  - destruct (render_node n0) as [b|e] eqn:E0.
    + now rewrite (IH Hn Hr).
    + now rewrite (render_node_raise _ _ E0).
Qed.

(** For a node that has posted its conditions, the Ready status
    [list_nodes] prints (over the conditions of the four watched types) is
    the one [list_pods_by_node] prints (over the Ready conditions only):
    the status of the last Ready condition, or "Unknown" when there is
    none. For a node that has posted none, both functions raise the same
    [TypeError], and [list_nodes] of any list holding that node is
    "Unexpected error: 'NoneType' object is not iterable". *)
Theorem list_nodes_ready_agrees :
  forall (n : KNode),
    (forall cs, kn_conditions n = Some cs ->
       Nodes.ready_status (Nodes.mkNode (kn_name n) (kn_conditions n))
       = Ok (get_or "Ready" "Unknown" (status_conditions cs))
       /\ (exists pre post, render_node n
             = Ok (pre ++ "    Status: Ready=" ++ get_or "Ready" "Unknown" (status_conditions cs) ++ post))
       /\ (forallb (fun c => negb (String.eqb (fst c) "Ready")) cs = true ->
           get_or "Ready" "Unknown" (status_conditions cs) = "Unknown"))
    /\ (kn_conditions n = None ->
        Nodes.ready_status (Nodes.mkNode (kn_name n) (kn_conditions n)) = Raise Nodes.none_iter_error
        /\ forall items, In n items ->
           list_nodes (Returned items) = "Unexpected error: " ++ exc_str Nodes.none_iter_error).
Proof.
  intro n. split.
  - intros cs Hc.
    assert (E : get_or "Ready" "Unknown" (status_conditions cs)
                = fold_left (fun acc c => if String.eqb (fst c) "Ready" then snd c else acc) cs "Unknown")
      by (unfold status_conditions; apply ready_fold; reflexivity).
    split; [|split].
    + unfold Nodes.ready_status. simpl. rewrite Hc, E. reflexivity.
    + unfold render_node. rewrite Hc. exists ("  - " ++ kn_name n ++ nl). eexists.
      rewrite !string_app_assoc. reflexivity.
    + intro H. rewrite E. clear E Hc. generalize "Unknown" as acc.
      induction cs as [|[t v] l IH]; intro acc; simpl in *; [reflexivity|].
      apply andb_true_iff in H as [H1 H2].
      destruct (String.eqb t "Ready"); [discriminate|]. apply IH, H2.
  - intro Hc. split.
    + unfold Nodes.ready_status. simpl. rewrite Hc. reflexivity.
    + intros items Hn.
      assert (Hr : render_nodes items = Raise Nodes.none_iter_error).
      { apply (render_nodes_raise items n Hn). unfold render_node. now rewrite Hc. }
      unfold list_nodes. destruct items as [|n0 items']; [destruct Hn|]. rewrite Hr. reflexivity.
Qed.

Lemma list_nodes_ready_agrees_witness :
  kn_conditions fresh_knode = None
  /\ list_nodes (Returned [kubeadm_cp; fresh_knode])
     = "Unexpected error: " ++ exc_str Nodes.none_iter_error
  /\ Nodes.ready_status (Nodes.mkNode (kn_name kubeadm_cp) (kn_conditions kubeadm_cp))
     = Ok (get_or "Ready" "Unknown" (status_conditions [("Ready", "True")])).
Proof.
  destruct (list_nodes_ready_agrees fresh_knode) as [_ Hnone].
  destruct (list_nodes_ready_agrees kubeadm_cp) as [Hsome _].
  assert (H0 : kn_conditions fresh_knode = None) by reflexivity.
  split; [exact H0|split].
  - apply (proj2 (Hnone H0)). right. left. reflexivity.
  - exact (proj1 (Hsome _ eq_refl)).
Defined.

(** A node whose control-plane label is present with the empty value (the
    way kubeadm labels control-plane nodes), whose master label is missing
    or empty, and which has posted its conditions, is listed by
    [list_nodes] with "Role: worker", yet [cluster_info] counts it as a
    control-plane node. *)
Theorem empty_role_label_mismatch :
  forall (n : KNode) (l cs : list (string * string)),
    kn_labels n = Some l ->
    kn_conditions n = Some cs ->
    assoc_get cp_label l = Some "" ->
    (assoc_get master_label l = None \/ assoc_get master_label l = Some "") ->
    role l = "worker"
    /\ (exists pre, render_node n
                    = Ok (pre ++ "    Role: " ++ role l ++ nl ++ "    Age: " ++ kn_created n ++ nl ++ nl))
    /\ is_control_plane n = true.
Proof.
  intros n l cs Hl Hc Hcp Hm.
  assert (Hr : role l = "worker").
  { unfold role. rewrite Hcp. simpl. destruct Hm as [Hm|Hm]; rewrite Hm; reflexivity. }
  split; [exact Hr|split].
  - assert (Ht : dict_truthy (kn_labels n) = true).
    { rewrite Hl. destruct l; [discriminate|reflexivity]. }
    unfold render_node. rewrite Hc, Ht, Hl.
    eexists. rewrite <- !string_app_assoc. reflexivity.
  - unfold is_control_plane, has_label. rewrite Hl. apply orb_true_iff. left.
    clear Hl Hm Hr. induction l as [|[k v] l IH]; cbn [assoc_get existsb fst] in *; [discriminate|].
    destruct (String.eqb k cp_label) eqn:E; [reflexivity|]. cbn [orb].
    apply IH. rewrite String.eqb_sym, E in Hcp. exact Hcp.
Qed.

Lemma empty_role_label_mismatch_witness :
  kn_labels kubeadm_cp = Some [(cp_label, "")]
  /\ kn_conditions kubeadm_cp = Some [("Ready", "True")]
  /\ assoc_get cp_label [(cp_label, "")] = Some ""
  /\ assoc_get master_label [(cp_label, "")] = None
  /\ role [(cp_label, "")] = "worker"
  /\ is_control_plane kubeadm_cp = true.
Proof.
  assert (H1 : kn_labels kubeadm_cp = Some [(cp_label, "")]) by reflexivity.
  assert (H1' : kn_conditions kubeadm_cp = Some [("Ready", "True")]) by reflexivity.
  assert (H2 : assoc_get cp_label [(cp_label, "")] = Some "") by (vm_compute; reflexivity).
  assert (H3 : assoc_get master_label [(cp_label, "")] = None) by (vm_compute; reflexivity).
  destruct (empty_role_label_mismatch kubeadm_cp _ _ H1 H1' H2 (or_introl H3)) as [Hr [_ Hc]].
  split; [exact H1|split; [exact H1'|split; [exact H2|split; [exact H3|split; [exact Hr|exact Hc]]]]].
Defined.

End NodeListProofs.

(** ** Proofs: src/tools/deployments.py, [restart] and the failed read *)
Module DeploymentRestartProofs.
Import DeploymentRestart.

(** A restart that reports success has read the deployment and then sent
    one patch: the deployment it read, with the pod template's
    ["kubectl.kubernetes.io/restartedAt"] annotation set to the current time
    (an absent annotation dict becomes one), every other annotation kept, and
    the replica count and all other fields unchanged. *)
Theorem restart_read_then_patch :
  forall (C : Type) (read_api : C -> string -> string -> ApiResult RDeployment)
         (patch_api : C -> string -> string -> RDeployment -> ApiResult unit * C)
         (now : string) (calls : list RCall) (c : C) (deployment_name namespace : string),
    let '(r, (calls', c')) := restart C read_api patch_api now deployment_name namespace (calls, c) in
    r = "Successfully triggered rolling restart for deployment '" ++ deployment_name
        ++ "' in namespace '" ++ namespace ++ "'" ->
    exists d, read_api c deployment_name namespace = Returned d
      /\ patch_api c deployment_name namespace (set_restarted_at d now) = (Returned tt, c')
      /\ calls' = (calls ++ [RRead deployment_name namespace;
                             RPatch deployment_name namespace (set_restarted_at d now)])%list
      /\ annotations (template_metadata (rd_spec (set_restarted_at d now)))
         = Some (NodeList.dict_set restarted_at now (ann_of d))
      /\ NodeList.assoc_get restarted_at (ann_of (set_restarted_at d now)) = Some now
      /\ (forall k, k <> restarted_at ->
          NodeList.assoc_get k (ann_of (set_restarted_at d now)) = NodeList.assoc_get k (ann_of d))
      /\ rs_replicas (rd_spec (set_restarted_at d now)) = rs_replicas (rd_spec d)
      /\ rs_rest (rd_spec (set_restarted_at d now)) = rs_rest (rd_spec d)
      /\ tmeta_rest (template_metadata (rd_spec (set_restarted_at d now)))
         = tmeta_rest (template_metadata (rd_spec d))
      /\ rd_name (set_restarted_at d now) = rd_name d
      /\ rd_namespace (set_restarted_at d now) = rd_namespace d
      /\ rd_rest (set_restarted_at d now) = rd_rest d.
Proof.
  intros C read_api patch_api now calls c deployment_name namespace.
  unfold restart. simpl.
  destruct (read_api c deployment_name namespace) as [d|e|e] eqn:Er.
  - destruct (patch_api c deployment_name namespace (set_restarted_at d now)) as [[u| e| e] c2] eqn:Ep.
    + intros _. destruct u. exists d.
      split; [reflexivity|split; [exact Ep|split; [rewrite <- app_assoc; reflexivity|]]].
      split; [reflexivity|]. unfold ann_of at 1 2. simpl.
      split; [apply NodeListProofs.assoc_get_set_same|].
      split; [intros k Hk; apply NodeListProofs.assoc_get_set_other; exact Hk|].
      repeat split; reflexivity.
    + destruct (api_status e =? 404)%Z; simpl; discriminate.
    + simpl. discriminate.
  - destruct (api_status e =? 404)%Z; simpl; discriminate.
  - simpl. discriminate.
Qed.

(** When reading the deployment fails, neither [scale] nor [restart] sends a
    patch: the only request sent is the read and the cluster is untouched; a
    404 is reported as "Deployment '<name>' not found in namespace '<ns>'". *)
Theorem failed_read_sends_no_patch :
  forall (C : Type)
         (read_s : C -> string -> string -> ApiResult Deployments.Deployment)
         (patch_s : C -> string -> string -> Deployments.Deployment -> ApiResult unit * C)
         (read_r : C -> string -> string -> ApiResult RDeployment)
         (patch_r : C -> string -> string -> RDeployment -> ApiResult unit * C)
         (now : string) (calls_s : list Deployments.AppsCall) (calls_r : list RCall) (c : C)
         (deployment_name namespace : string) (n : Z) (e : ApiException),
    read_s c deployment_name namespace = ApiError e ->
    read_r c deployment_name namespace = ApiError e ->
    let not_found := "Deployment '" ++ deployment_name ++ "' not found in namespace '" ++ namespace ++ "'" in
    snd (Deployments.scale C read_s patch_s deployment_name n namespace (calls_s, c))
      = ((calls_s ++ [Deployments.ReadNamespacedDeployment deployment_name namespace])%list, c)
    /\ snd (restart C read_r patch_r now deployment_name namespace (calls_r, c))
      = ((calls_r ++ [RRead deployment_name namespace])%list, c)
    /\ (api_status e = 404%Z ->
        fst (Deployments.scale C read_s patch_s deployment_name n namespace (calls_s, c)) = not_found
        /\ fst (restart C read_r patch_r now deployment_name namespace (calls_r, c)) = not_found).
Proof.
  intros C read_s patch_s read_r patch_r now calls_s calls_r c deployment_name namespace n e Hs Hr
    not_found.
  unfold Deployments.scale, Deployments.read_namespaced_deployment, restart. simpl.
  rewrite Hs, Hr.
  split; [|split].
  - destruct (api_status e =? 404)%Z; reflexivity.
  - destruct (api_status e =? 404)%Z; reflexivity.
  - intro H404. rewrite H404. split; reflexivity.
Qed.

Lemma restart_read_then_patch_witness :
  fst (restart unit read_web_r patch_ok_r "2024-01-01T00:00:00" "web" "default" ([], tt))
  = "Successfully triggered rolling restart for deployment 'web' in namespace 'default'"
  /\ exists d, read_web_r tt "web" "default" = Returned d
      /\ NodeList.assoc_get restarted_at (ann_of (set_restarted_at d "2024-01-01T00:00:00"))
         = Some "2024-01-01T00:00:00"
      /\ NodeList.assoc_get "team" (ann_of (set_restarted_at d "2024-01-01T00:00:00")) = Some "a"
      /\ rs_replicas (rd_spec (set_restarted_at d "2024-01-01T00:00:00")) = Some 3%Z.
Proof.
  pose proof (restart_read_then_patch unit read_web_r patch_ok_r "2024-01-01T00:00:00" [] tt
                "web" "default") as H.
  destruct (restart unit read_web_r patch_ok_r "2024-01-01T00:00:00" "web" "default" ([], tt))
    as [r [calls' c']] eqn:E.
  assert (Er : r = "Successfully triggered rolling restart for deployment 'web' in namespace 'default'").
  { vm_compute in E. inversion E. reflexivity. }
  split; [exact Er|].
  destruct (H Er) as [d [Hd [_ [_ [_ [Hnow [Hkeep [Hrep _]]]]]]]].
  exists d. split; [exact Hd|split; [exact Hnow|split]].
  - rewrite (Hkeep "team" ltac:(vm_compute; discriminate)).
    unfold read_web_r in Hd. inversion Hd. vm_compute. reflexivity.
  - rewrite Hrep. unfold read_web_r in Hd. inversion Hd. reflexivity.
Defined.

Lemma failed_read_sends_no_patch_witness :
  read_missing tt "api" "default" = ApiError not_found_exc
  /\ read_missing_r tt "api" "default" = ApiError not_found_exc
  /\ api_status not_found_exc = 404%Z
  /\ snd (restart unit read_missing_r patch_ok_r "2024-01-01T00:00:00" "api" "default" ([], tt))
     = ([RRead "api" "default"], tt)
  /\ fst (restart unit read_missing_r patch_ok_r "2024-01-01T00:00:00" "api" "default" ([], tt))
     = "Deployment '" ++ "api" ++ "' not found in namespace '" ++ "default" ++ "'".
Proof.
  assert (H1 : read_missing tt "api" "default" = ApiError not_found_exc) by reflexivity.
  assert (H2 : read_missing_r tt "api" "default" = ApiError not_found_exc) by reflexivity.
  assert (H3 : api_status not_found_exc = 404%Z) by reflexivity.
  destruct (failed_read_sends_no_patch unit read_missing Deployments.patch_ok read_missing_r patch_ok_r
              "2024-01-01T00:00:00" [] [] tt "api" "default" 2%Z not_found_exc H1 H2)
    as [_ [Hs Hnf]].
  split; [exact H1|split; [exact H2|split; [exact H3|split; [exact Hs|exact (proj2 (Hnf H3))]]]].
Defined.

End DeploymentRestartProofs.

(** ** Proofs: src/tools/yaml_ops.py, the other paths of [apply] and [get] *)
Module YamlOpsMoreProofs.
Import Dispatch YamlOps.

Definition kubectl_missing_msg : string :=
  "✗ Error: kubectl command not found. Make sure kubectl is installed and in PATH.".

(** When writing the content to the temporary file fails (after
    [NamedTemporaryFile(delete=False)] has created it), [apply] reports
    "✗ Unexpected error: ..." without running kubectl, and the file it
    created stays behind: the cleanup [finally] is only entered later. *)
Theorem apply_write_failure_leaks_file :
  forall (safe_load_all : string -> Exc (list PyVal)) (tmp_write : string -> option PyExc)
         (kubectl_run : list (string * string) -> list string -> Z -> RunOutcome)
         (content : string) (docs : list PyVal) (s : Sys) (path : string) (e : PyExc),
    safe_load_all content = Ok docs ->
    existsb (fun d => negb (is_none d)) docs = true ->
    pick_tmp (files s) 0 TMP_MAX = Some path ->
    tmp_write content = Some e ->
    String.eqb (exc_class e) "TimeoutExpired" = false ->
    String.eqb (exc_class e) "FileNotFoundError" = false ->
    let '(r, s') := apply safe_load_all tmp_write kubectl_run content s in
    r = "✗ Unexpected error: " ++ exc_str e
    /\ ~ In path (map fst (files s))
    /\ In path (map fst (files s'))
    /\ runs s' = runs s
    /\ api_calls s' = api_calls s.
Proof.
  intros slA tw kr content docs s path e Hl Hd Hp Hw Ht Hf.
  unfold apply, apply_body. rewrite Hl, (YamlOpsProofs.some_doc_guard _ Hd).
  unfold st_bind, named_temporary_file. rewrite Hp, Hw, Ht, Hf. simpl.
  split; [reflexivity|split; [|split; [left; reflexivity|split; reflexivity]]].
  apply YamlOpsProofs.existsb_fst_notin. exact (YamlOpsProofs.pick_tmp_fresh _ _ _ _ Hp).
Qed.

(** When kubectl cannot be started ([FileNotFoundError]) [apply] reports
    that kubectl is not installed, and any other exception raised by the
    run (except a timeout) is reported as "✗ Unexpected error: ..."; in both
    cases the temporary file has been removed. *)
Theorem apply_run_exception_messages :
  forall (safe_load_all : string -> Exc (list PyVal)) (tmp_write : string -> option PyExc)
         (kubectl_run : list (string * string) -> list string -> Z -> RunOutcome)
         (content : string) (docs : list PyVal) (s : Sys) (path : string) (e : PyExc),
    safe_load_all content = Ok docs ->
    existsb (fun d => negb (is_none d)) docs = true ->
    pick_tmp (files s) 0 TMP_MAX = Some path ->
    tmp_write content = None ->
    kubectl_run ((path, content) :: files s) (kubectl_argv path) 60%Z = RunRaised e ->
    String.eqb (exc_class e) "TimeoutExpired" = false ->
    let '(r, s') := apply safe_load_all tmp_write kubectl_run content s in
    files s' = files s
    /\ (exc_class e = "FileNotFoundError" -> r = kubectl_missing_msg)
    /\ (exc_class e <> "FileNotFoundError" -> r = "✗ Unexpected error: " ++ exc_str e).
Proof.
  intros slA tw kr content docs s path e Hl Hd Hp Hw Hk Ht.
  pose proof (YamlOpsProofs.pick_tmp_fresh _ _ _ _ Hp) as Hfresh.
  unfold apply, apply_body. rewrite Hl, (YamlOpsProofs.some_doc_guard _ Hd).
  unfold st_bind, named_temporary_file. rewrite Hp, Hw.
  unfold st_finally, st_bind, subprocess_run. simpl.
  unfold kubectl_argv in Hk. rewrite Hk. simpl. rewrite Ht.
  destruct (String.eqb_spec (exc_class e) "FileNotFoundError") as [Ef|Ef]; simpl;
    rewrite String.eqb_refl; simpl; rewrite (YamlOpsProofs.unlink_fresh _ _ Hfresh).
  - split; [reflexivity|split; [reflexivity|intro H; contradiction]].
  - split; [reflexivity|split; [intro H; contradiction|reflexivity]].
Qed.

Lemma lookup_kind_none kind :
  ~ In kind ["Pod"; "Deployment"; "Service"; "ConfigMap"; "Secret"] ->
  lookup_kind kind api_map = None.
Proof.
  intro H. unfold api_map. simpl.
  repeat match goal with
         | |- context [String.eqb kind ?k] =>
             destruct (String.eqb_spec kind k); [subst; exfalso; apply H; simpl; tauto|]
         end.
  reflexivity.
Qed.

(** [get] on a kind outside Pod, Deployment, Service, ConfigMap and Secret
    (the names are case-sensitive) answers with the list of supported kinds
    and sends no request. *)
Theorem get_unsupported_kind :
  forall (read_resource : string -> string -> string -> ApiResult PyVal)
         (dump : PyVal -> Exc string) (kind name : string) (namespace : option string) (s : Sys),
    ~ In kind ["Pod"; "Deployment"; "Service"; "ConfigMap"; "Secret"] ->
    get read_resource dump kind name namespace s
    = ("Unsupported resource kind: " ++ kind
       ++ ". Supported: Pod, Deployment, Service, ConfigMap, Secret", s).
Proof.
  intros rr dump kind name namespace s H.
  unfold get. rewrite (lookup_kind_none kind H). reflexivity.
Qed.

(** [get] on a supported kind with a namespace sends exactly one request,
    the read method mapped to the kind, for that name and namespace; a 404
    is reported as "Resource <kind>/<name> not found in namespace '<ns>'" and
    a found resource is returned as its YAML dump. *)
Theorem get_supported_kind_one_read :
  forall (read_resource : string -> string -> string -> ApiResult PyVal)
         (dump : PyVal -> Exc string) (kind method_name name : string)
         (namespace : option string) (s : Sys),
    lookup_kind kind api_map = Some method_name ->
    truthy_opt namespace = true ->
    let '(r, s') := get read_resource dump kind name namespace s in
    s' = mkSys (files s) (runs s) (api_calls s ++ [(method_name, name, str_opt namespace)])
    /\ (forall e, read_resource method_name name (str_opt namespace) = ApiError e ->
        api_status e = 404%Z ->
        r = "Resource " ++ kind ++ "/" ++ name ++ " not found in namespace '" ++ str_opt namespace ++ "'")
    /\ (forall res y, read_resource method_name name (str_opt namespace) = Returned res ->
        dump res = Ok y -> r = "YAML for " ++ kind ++ "/" ++ name ++ ":" ++ lf ++ lf ++ y).
Proof.
  intros rr dump kind m name namespace s Hk Hn.
  unfold get. rewrite Hk, Hn.
  destruct (rr m name (str_opt namespace)) as [res|e|e] eqn:Er.
  - destruct (dump res) as [y|e] eqn:Ed.
    + split; [reflexivity|split; [intros e' H; discriminate H|]].
      intros res' y' H1 H2. inversion H1; subst. rewrite Ed in H2. inversion H2. reflexivity.
    + split; [reflexivity|split; [intros e' H; discriminate H|]].
      intros res' y' H1 H2. inversion H1; subst. congruence.
  - destruct (Z.eqb_spec (api_status e) 404) as [E4|E4].
    + split; [reflexivity|split; [|intros res y H; discriminate H]].
      intros e' H1 H2. reflexivity.
    + split; [reflexivity|split; [|intros res y H; discriminate H]].
      intros e' H1 H2. inversion H1; subst. contradiction.
  - split; [reflexivity|split; intros; discriminate].
Qed.

Lemma apply_write_failure_leaks_file_witness :
  toy_load "kind: Pod" = Ok [PStr "kind: Pod"]
  /\ existsb (fun d => negb (is_none d)) [PStr "kind: Pod"] = true
  /\ pick_tmp (files sys0) 0 TMP_MAX = Some (tmp_name 0)
  /\ let '(r, s') := apply toy_load write_fails kubectl_timeout "kind: Pod" sys0 in
     r = "✗ Unexpected error: " ++ "[Errno 28] No space left on device"
     /\ ~ In (tmp_name 0) (map fst (files sys0))
     /\ In (tmp_name 0) (map fst (files s'))
     /\ runs s' = runs sys0
     /\ api_calls s' = api_calls sys0.
Proof.
  assert (H1 : toy_load "kind: Pod" = Ok [PStr "kind: Pod"]) by reflexivity.
  assert (H2 : existsb (fun d => negb (is_none d)) [PStr "kind: Pod"] = true) by reflexivity.
  assert (H3 : pick_tmp (files sys0) 0 TMP_MAX = Some (tmp_name 0)) by (vm_compute; reflexivity).
  split; [exact H1|split; [exact H2|split; [exact H3|]]].
  exact (apply_write_failure_leaks_file toy_load write_fails kubectl_timeout "kind: Pod"
           [PStr "kind: Pod"] sys0 (tmp_name 0) _ H1 H2 H3 eq_refl eq_refl eq_refl).
Defined.

(** C5 counterexample: [apply] reaches the write of the temporary file, the
    write raises (a full disk), and the file [NamedTemporaryFile(delete=False)]
    created is left behind: the set of files after the call is not the one
    before it. *)
Lemma apply_write_failure_counterexample :
  let '(r, s') := apply toy_load write_fails kubectl_timeout "kind: Pod" sys0 in
  r = "✗ Unexpected error: [Errno 28] No space left on device"
  /\ files sys0 = []
  /\ files s' = [(tmp_name 0, "")]
  /\ files s' <> files sys0.
Proof. vm_compute. split; [reflexivity|split; [reflexivity|split; [reflexivity|discriminate]]]. Qed.

Lemma apply_run_exception_messages_witness :
  toy_load "kind: Pod" = Ok [PStr "kind: Pod"]
  /\ pick_tmp (files sys0) 0 TMP_MAX = Some (tmp_name 0)
  /\ let '(r, s') := apply toy_load write_ok kubectl_missing "kind: Pod" sys0 in
     files s' = files sys0
     /\ ("FileNotFoundError" = "FileNotFoundError" -> r = kubectl_missing_msg)
     /\ ("FileNotFoundError" <> "FileNotFoundError" ->
         r = "✗ Unexpected error: " ++ "[Errno 2] No such file or directory: 'kubectl'").
Proof.
  assert (H1 : toy_load "kind: Pod" = Ok [PStr "kind: Pod"]) by reflexivity.
  assert (H3 : pick_tmp (files sys0) 0 TMP_MAX = Some (tmp_name 0)) by (vm_compute; reflexivity).
  split; [exact H1|split; [exact H3|]].
  exact (apply_run_exception_messages toy_load write_ok kubectl_missing "kind: Pod"
           [PStr "kind: Pod"] sys0 (tmp_name 0) _ H1 eq_refl H3 eq_refl eq_refl eq_refl).
Defined.

Lemma get_unsupported_kind_witness :
  ~ In "pod" ["Pod"; "Deployment"; "Service"; "ConfigMap"; "Secret"]
  /\ get read_none dump_ok "pod" "web" (Some "default") sys0
     = ("Unsupported resource kind: " ++ "pod"
        ++ ". Supported: Pod, Deployment, Service, ConfigMap, Secret", sys0).
Proof.
  assert (H : ~ In "pod" ["Pod"; "Deployment"; "Service"; "ConfigMap"; "Secret"])
    by (simpl; intuition discriminate).
  split; [exact H|].
  exact (get_unsupported_kind read_none dump_ok "pod" "web" (Some "default") sys0 H).
Defined.

Lemma get_supported_kind_one_read_witness :
  lookup_kind "Pod" api_map = Some "read_namespaced_pod"
  /\ truthy_opt (Some "default") = true
  /\ let '(r, s') := get read_not_found dump_ok "Pod" "web" (Some "default") sys0 in
     r = "Resource " ++ "Pod" ++ "/" ++ "web" ++ " not found in namespace '" ++ "default" ++ "'"
     /\ s' = mkSys [] [] [("read_namespaced_pod", "web", "default")].
Proof.
  assert (H1 : lookup_kind "Pod" api_map = Some "read_namespaced_pod") by reflexivity.
  assert (H2 : truthy_opt (Some "default") = true) by reflexivity.
  split; [exact H1|split; [exact H2|]].
  pose proof (get_supported_kind_one_read read_not_found dump_ok "Pod" "read_namespaced_pod" "web"
                (Some "default") sys0 H1 H2) as H.
  destruct (get read_not_found dump_ok "Pod" "web" (Some "default") sys0) as [r s'].
  destruct H as [Hs [Hnf _]]. split.
  - exact (Hnf _ eq_refl eq_refl).
  - exact Hs.
Defined.

End YamlOpsMoreProofs.

(** ** Proofs: src/server.py, the normal and the failing path of a
    registered tool *)
Module DispatchMoreProofs.
Import Dispatch.








End DispatchMoreProofs.

(** ** Proofs: src/tools/events.py, a negative [limit] *)
Module EventsMoreProofs.
Import Events.

Lemma strongly_sorted_app {A} (R : A -> A -> Prop) l1 l2 :
  StronglySorted R (l1 ++ l2) -> forall a b, In a l1 -> In b l2 -> R a b.
Proof.
  induction l1 as [|x l1 IH]; simpl; intros H a b Ha Hb; [contradiction|].
  apply StronglySorted_inv in H as [H1 H2].
  destruct Ha as [<-|Ha].
  - rewrite Forall_forall in H2. apply H2, in_or_app. now right.
  - now apply IH.
Qed.

(** A negative [limit] is a Python slice from the end, [sorted_events[:limit]]:
    instead of the [limit] newest events, [list_events] shows all but the
    [|limit|] oldest ones of the sorted list (none when [|limit|] is at least
    their number), and every dropped event is no newer than any shown one.
    The header still counts all fetched events. *)
Theorem list_events_negative_limit_drops_oldest :
  forall (v1 : CoreV1Api) (namespace : option string) (limit : Z) (items : list Event),
    (limit < 0)%Z ->
    (if truthy_opt namespace
     then list_namespaced_event v1 (str_opt namespace) limit
     else list_event_for_all_namespaces v1 limit) = Returned items ->
    items <> [] ->
    exists shown dropped,
      sort_desc items = (shown ++ dropped)%list
      /\ List.length dropped = Nat.min (Z.to_nat (- limit)) (List.length items)
      /\ (forall a b, In a shown -> In b dropped -> (eff_ts b <= eff_ts a)%Z)
      /\ list_events v1 namespace limit
         = "Recent events in "
           ++ (if truthy_opt namespace then "namespace '" ++ str_opt namespace ++ "'"
               else "all namespaces")
           ++ " (showing " ++ str_nat (List.length items) ++ "):"
           ++ nl ++ nl ++ String.concat "" (map render_event shown).
Proof.
  intros v1 namespace limit items Hlim Hresp Hne.
  assert (Hlen : List.length (sort_desc items) = List.length items)
    by apply Permutation_length, EventsProofs.sort_desc_perm.
  set (k := (List.length items - Z.to_nat (- limit))%nat).
  assert (Htake : py_take limit (sort_desc items) = firstn k (sort_desc items)).
  { unfold py_take. replace (0 <=? limit)%Z with false by (symmetry; apply Z.leb_gt; lia).
    now rewrite Hlen. }
  exists (firstn k (sort_desc items)), (skipn k (sort_desc items)).
  split; [symmetry; apply firstn_skipn|split; [|split]].
  - rewrite length_skipn, Hlen. unfold k. lia.
  - intros a b Ha Hb.
    assert (Hs : StronglySorted ts_ge (sort_desc items)).
    { apply Sorted_StronglySorted; [|apply EventsProofs.sort_desc_sorted].
      intros x y z Hxy Hyz. unfold ts_ge in *. lia. }
    rewrite <- (firstn_skipn k (sort_desc items)) in Hs.
    exact (strongly_sorted_app ts_ge _ _ Hs a b Ha Hb).
  - unfold list_events.
    destruct (truthy_opt namespace); rewrite Hresp;
      (destruct items as [|i items]; [contradiction|]);
      cbv beta iota zeta; rewrite Htake, Hlen, !string_app_assoc; reflexivity.
Qed.

Lemma list_events_negative_limit_drops_oldest_witness :
  (-1 < 0)%Z
  /\ exists shown dropped,
      sort_desc [T1; T2; T3] = (shown ++ dropped)%list
      /\ List.length dropped = Nat.min (Z.to_nat (- -1)) 3
      /\ (forall a b, In a shown -> In b dropped -> (eff_ts b <= eff_ts a)%Z)
      /\ list_events v1_example None (-1)
         = "Recent events in " ++ "all namespaces" ++ " (showing " ++ str_nat 3 ++ "):"
           ++ nl ++ nl ++ String.concat "" (map render_event shown).
Proof.
  split; [lia|].
  exact (list_events_negative_limit_drops_oldest v1_example None (-1) [T1; T2; T3]
           ltac:(lia) eq_refl ltac:(discriminate)).
Defined.

End EventsMoreProofs.

(** ** Proofs: src/tools/nodes.py, what the groups of [list_pods_by_node]
    hold *)
Module NodesMoreProofs.
Import Nodes.

Lemma list_sum_map_add {A} (f g : A -> nat) l :
  list_sum (map (fun k => f k + g k) l) = list_sum (map f l) + list_sum (map g l).
Proof. induction l as [|x l IH]; simpl; [reflexivity|rewrite IH; lia]. Qed.

Lemma list_sum_indicator_out n K :
  ~ In n K -> list_sum (map (fun k => if String.eqb n k then 1 else 0) K) = 0.
Proof.
  induction K as [|k K IH]; intro Hn; simpl; [reflexivity|].
  destruct (String.eqb_spec n k) as [E|E]; [exfalso; apply Hn; now left|].
  apply IH. intro Hi. apply Hn. now right.
Qed.

Lemma list_sum_indicator_in n K :
  NoDup K -> In n K -> list_sum (map (fun k => if String.eqb n k then 1 else 0) K) = 1.
Proof.
  induction K as [|k K IH]; intros Hd Hn; simpl; [destruct Hn|].
  apply NoDup_cons_iff in Hd as [Hk Hd].
  destruct (String.eqb_spec n k) as [E|E].
  - subst k. rewrite (list_sum_indicator_out n K Hk). reflexivity.
  - destruct Hn as [Hn|Hn]; [congruence|]. rewrite (IH Hd Hn). reflexivity.
Qed.

(** Summing the per-key groups over a duplicate-free list of keys holding
    every assigned node name counts each scheduled pod once. *)
Lemma list_sum_map_zero (K : list string) : list_sum (map (fun _ => 0) K) = 0.
Proof. induction K as [|k K IH]; simpl; [reflexivity|exact IH]. Qed.

Lemma sum_groups_count items K :
  NoDup K ->
  (forall p n, In p items -> spec_node_name p = Some n -> n <> "" -> In n K) ->
  list_sum (map (fun k => List.length (filter (scheduled_on k) items)) K)
  = List.length (filter scheduled items).
Proof.
  intros Hd. induction items as [|p items IH]; intro Hk.
  - simpl. apply list_sum_map_zero.
  - rewrite (map_ext (fun k => List.length (filter (scheduled_on k) (p :: items)))
               (fun k => (if scheduled_on k p then 1 else 0)
                         + List.length (filter (scheduled_on k) items))).
    2:{ intro k. simpl. destruct (scheduled_on k p); reflexivity. }
    rewrite list_sum_map_add.
    rewrite IH by (intros q n Hq; apply Hk; now right).
    cbn [filter]. unfold scheduled_on.
    assert (Hs : scheduled p = truthy_opt (spec_node_name p)) by reflexivity.
    rewrite Hs. clear Hs.
    destruct (spec_node_name p) as [n|] eqn:En.
    + destruct (String.eqb_spec n "") as [Hz|Hz].
      * subst n. cbn. rewrite list_sum_map_zero. reflexivity.
      * replace (truthy_opt (Some n)) with true
          by (simpl; now rewrite (proj2 (String.eqb_neq n "") Hz)).
        cbn [negb andb].
        rewrite (list_sum_indicator_in n K Hd) by (apply (Hk p n); [now left|exact En|exact Hz]).
        simpl. lia.
    + cbn. rewrite list_sum_map_zero. reflexivity.
Qed.

Lemma find_node_absent k nodes : ~ In k (map node_name nodes) -> find_node k nodes = None.
Proof.
  induction nodes as [|n nodes IH]; simpl; intro H; [reflexivity|].
  destruct (String.eqb_spec (node_name n) k) as [E|E]; [exfalso; apply H; now left|].
  apply IH. intro Hi. apply H. now right.
Qed.

Lemma in_groups x nodes items :
  In x (map fst (pods_by_node nodes items)) <->
  In x (map fst (node_groups (pods_by_node nodes items))).
Proof.
  rewrite NodesProofs.keys_node_groups. split; intro H.
  - eapply Permutation_in; [symmetry; apply NodesProofs.sort_keys_perm|exact H].
  - eapply Permutation_in; [apply NodesProofs.sort_keys_perm|exact H].
Qed.

Lemma scheduled_key p n nodes items :
  In p items -> spec_node_name p = Some n -> n <> "" ->
  In n (map fst (pods_by_node nodes items)).
Proof.
  intros Hp En Hz. apply NodesProofs.in_keys_lookup.
  rewrite NodesProofs.lookup_pods_by_node.
  assert (Hf : In p (filter (scheduled_on n) items)).
  { apply filter_In. split; [exact Hp|]. unfold scheduled_on. rewrite En.
    rewrite String.eqb_refl. destruct (String.eqb_spec n "") as [E|E]; [contradiction|reflexivity]. }
  destruct (filter (scheduled_on n) items); [contradiction|discriminate].
Qed.

(** Every pod shown by [list_pods_by_node] is one of the pods it fetched
    (restricted to [namespace] when that is truthy), listed under the node
    it is scheduled on; the groups together hold exactly as many pods as
    the fetched pods with an assigned node, so each is listed once. *)
Theorem list_pods_by_node_pod_accounting :
  forall (nodes : list Node) (pods : list Pod) (namespace : option string),
    let items := pods_in namespace pods in
    let groups := node_groups (pods_by_node nodes items) in
    list_sum (map (fun g => List.length (snd g)) groups) = List.length (filter scheduled items)
    /\ (forall k ps p, In (k, ps) groups -> In p ps ->
        In p pods /\ scheduled_on k p = true
        /\ (truthy_opt namespace = true -> pod_namespace p = str_opt namespace)).
Proof.
  intros nodes pods namespace items groups.
  set (d := pods_by_node nodes items).
  assert (Hget : forall k, In k (sort_keys (map fst d)) -> dict_get k d = filter (scheduled_on k) items).
  { intros k Hk. apply NodesProofs.get_pods_by_node.
    eapply Permutation_in; [apply NodesProofs.sort_keys_perm|exact Hk]. }
  split.
  - unfold groups, node_groups. fold d. rewrite map_map. simpl.
    rewrite (map_ext_in _ (fun k => List.length (filter (scheduled_on k) items)))
      by (intros k Hk; now rewrite Hget).
    apply sum_groups_count.
    + eapply Permutation_NoDup; [symmetry; apply NodesProofs.sort_keys_perm|].
      apply NodesProofs.nodup_pods_by_node.
    + intros p n Hp En Hz.
      eapply Permutation_in; [symmetry; apply NodesProofs.sort_keys_perm|].
      exact (scheduled_key p n nodes items Hp En Hz).
  - intros k ps p Hg Hp.
    unfold groups, node_groups in Hg. fold d in Hg.
    apply in_map_iff in Hg as [k' [Ek Hk']]. inversion Ek; subst k' ps.
    rewrite (Hget k Hk') in Hp. apply filter_In in Hp as [Hi Hs].
    unfold items, pods_in in Hi.
    split; [|split; [exact Hs|intro Ht]].
    + destruct (truthy_opt namespace); [apply filter_In in Hi as [Hi _]|]; exact Hi.
    + rewrite Ht in Hi. apply filter_In in Hi as [_ Hn]. now apply String.eqb_eq.
Qed.

(** A pod scheduled on a node that [list_node()] did not return still gets a
    group of its own, headed "Node: <name>" without a Ready status; when the
    listed nodes have posted their conditions, the output is the rendered
    list of groups (so not "No nodes or pods found"). *)
Theorem list_pods_by_node_unlisted_node :
  forall (nodes : list Node) (pods : list Pod) (namespace : option string) (p : Pod) (k : string),
    In p (pods_in namespace pods) ->
    spec_node_name p = Some k -> k <> "" ->
    ~ In k (map node_name nodes) ->
    let groups := node_groups (pods_by_node nodes (pods_in namespace pods)) in
    In (k, filter (scheduled_on k) (pods_in namespace pods)) groups
    /\ In p (filter (scheduled_on k) (pods_in namespace pods))
    /\ node_line nodes k = Ok ("Node: " ++ k ++ nl)
    /\ ((forall n, In n nodes -> conditions n <> None) ->
        exists blocks,
          Forall2 (fun g b => render_group nodes g = Ok b) groups blocks
          /\ list_pods_by_node (Returned nodes) (Returned pods) namespace
             = "Pods by Node (" ++ scope_of namespace ++ "):" ++ nl ++ nl
               ++ String.concat "" blocks).
Proof.
  intros nodes pods namespace p k Hp En Hz Hk groups.
  set (items := pods_in namespace pods) in *.
  pose proof (scheduled_key p k nodes items Hp En Hz) as Hkey.
  split; [|split; [|split]].
  - unfold groups, node_groups. apply in_map_iff. exists k.
    rewrite (NodesProofs.get_pods_by_node k nodes items Hkey). split; [reflexivity|].
    eapply Permutation_in; [symmetry; apply NodesProofs.sort_keys_perm|exact Hkey].
  - apply filter_In. split; [exact Hp|]. unfold scheduled_on. rewrite En, String.eqb_refl.
    destruct (String.eqb_spec k "") as [E|E]; [contradiction|reflexivity].
  - unfold node_line. now rewrite (find_node_absent k nodes Hk).
  - intro Hposted.
    destruct (NodesProofs.render_groups_ok nodes groups) as [bs [Hf Hr]].
    { intros [k' ps] _. destruct (NodesProofs.node_line_posted nodes k' Hposted) as [mid Hl].
      eexists. unfold render_group. rewrite Hl. reflexivity. }
    exists bs. split; [exact Hf|].
    unfold list_pods_by_node. fold items. unfold groups in Hr.
    destruct (pods_by_node nodes items) as [|g d] eqn:Ed; [destruct Hkey|].
    rewrite Hr. reflexivity.
Qed.

Lemma list_pods_by_node_unlisted_node_witness :
  In pod_c (pods_in None [pod_a; pod_c]) /\ spec_node_name pod_c = Some "n9" /\ "n9" <> ""
  /\ ~ In "n9" (map node_name ex_nodes)
  /\ let groups := node_groups (pods_by_node ex_nodes (pods_in None [pod_a; pod_c])) in
     In ("n9", filter (scheduled_on "n9") (pods_in None [pod_a; pod_c])) groups
     /\ In pod_c (filter (scheduled_on "n9") (pods_in None [pod_a; pod_c]))
     /\ node_line ex_nodes "n9" = Ok ("Node: " ++ "n9" ++ nl)
     /\ exists blocks,
          Forall2 (fun g b => render_group ex_nodes g = Ok b) groups blocks
          /\ list_pods_by_node (Returned ex_nodes) (Returned [pod_a; pod_c]) None
             = "Pods by Node (" ++ scope_of None ++ "):" ++ nl ++ nl ++ String.concat "" blocks.
Proof.
  assert (H1 : In pod_c (pods_in None [pod_a; pod_c])) by (simpl; tauto).
  assert (H2 : spec_node_name pod_c = Some "n9") by reflexivity.
  assert (H3 : "n9" <> "") by discriminate.
  assert (H4 : ~ In "n9" (map node_name ex_nodes)) by (simpl; intuition discriminate).
  assert (Hp : forall n, In n ex_nodes -> conditions n <> None)
    by (intros n [<-|[<-|[]]]; discriminate).
  destruct (list_pods_by_node_unlisted_node ex_nodes [pod_a; pod_c] None pod_c "n9" H1 H2 H3 H4)
    as [G1 [G2 [G3 G4]]].
  split; [exact H1|split; [exact H2|split; [exact H3|split; [exact H4|]]]].
  split; [exact G1|split; [exact G2|split; [exact G3|exact (G4 Hp)]]].
Defined.

End NodesMoreProofs.
